(** * meillionen: the module interface registry

    A shallow embedding of [meillionen/interface/module_interface.py]: the
    two-level registry (module -> classes -> methods), its construction, the
    dispatch of a [MethodRequest] and the flatbuffer round trip.

    Python objects are records, dictionaries are insertion-ordered association
    lists, exceptions are values of [exn], and code that raises or mutates is
    written in the state-and-exception monad [Py]. *)

From stdpp Require Import base list strings.

Set Default Proof Using "Type".
Open Scope string_scope.
Open Scope list_scope.

(** ** Exceptions *)

(** The exception classes the registry deals with.  [ClassNotFound] carries
    its [__cause__] ([raise ClassNotFound() from e]); [Exception] stands for
    any other class, such as whatever a method implementation raises. *)
Inductive exn : Type :=
| KeyError (key : string)
| ClassNotFound (cause : exn)
| MethodNotFound
| DuplicateClassError
| DuplicateMethodError
| MalformedBufferError
| MalformedRecordError
| Exception (what : string).

(** What evaluating a Python expression comes to: a value or a raised
    exception. *)
Inductive outcome (A : Type) : Type :=
| Returns (a : A)
| Raises (e : exn).
Arguments Returns {A} a.
Arguments Raises {A} e.

(** ** The monad of Python code over a state [S] *)

Module Py.
Definition t (S A : Type) : Type := S -> outcome A * S.

Definition ret {S A} (a : A) : t S A := fun s => (Returns a, s).

Definition raise {S A} (e : exn) : t S A := fun s => (Raises e, s).

Definition bind {S A B} (m : t S A) (k : A -> t S B) : t S B :=
  fun s =>
    match m s with
    | (Returns a, s') => k a s'
    | (Raises e, s') => (Raises e, s')
    end.

(** [try: body / except ... as e: handler e].  The handler decides by
    itself which exception classes it takes; the others it raises again. *)
Definition try_except {S A} (body : t S A) (handler : exn -> t S A) : t S A :=
  fun s =>
    match body s with
    | (Raises e, s') => handler e s'
    | r => r
    end.

Definition gets {S A} (f : S -> A) : t S A := fun s => (Returns (f s), s).

Definition lift {S A} (o : outcome A) : t S A := fun s => (o, s).

(** Run code written over a part [T] of the state on the whole state. *)
Definition zoom {S T A} (get : S -> T) (set : T -> S -> S) (m : t T A) : t S A :=
  fun s => let '(r, x) := m (get s) in (r, set x s).

(** [for x in xs: body x], collecting the results. *)
Fixpoint for_each {S A B} (body : A -> t S B) (xs : list A) : t S (list B) :=
  match xs with
  | [] => ret []
  | x :: xs' => bind (body x) (fun y => bind (for_each body xs') (fun ys => ret (y :: ys)))
  end.
End Py.

(** Both [outcome] (code that can raise but touches no state) and [Py.t S]
    are written with stdpp's notation for monads. *)
#[global] Instance outcome_ret : MRet outcome := fun _ a => Returns a.
#[global] Instance outcome_bind : MBind outcome := fun _ _ k m =>
  match m with
  | Returns a => k a
  | Raises e => Raises e
  end.
#[global] Instance py_ret {S} : MRet (Py.t S) := fun _ a => Py.ret a.
#[global] Instance py_bind {S} : MBind (Py.t S) := fun _ _ k m => Py.bind m k.

(** ** Dictionaries *)

(** A Python [dict] with string keys: the items in insertion order.  Setting
    a key that is present replaces its value where it stands; a new key goes
    to the end. *)
Module dict.
Abbreviation t V := (list (string * V)) (only parsing).

Fixpoint get {V} (d : t V) (k : string) : option V :=
  match d with
  | [] => None
  | (k', v) :: d' => if String.eqb k' k then Some v else get d' k
  end.

Fixpoint set {V} (d : t V) (k : string) (v : V) : t V :=
  match d with
  | [] => [(k, v)]
  | (k', v') :: d' =>
      if String.eqb k' k then (k', v) :: d' else (k', v') :: set d' k v
  end.

Definition keys {V} (d : t V) : list string := fst <$> d.

Definition values {V} (d : t V) : list V := snd <$> d.

(** [d[k]] *)
Definition getitem {V} (d : t V) (k : string) : outcome V :=
  match get d k with
  | Some v => Returns v
  | None => Raises (KeyError k)
  end.

(** [{key x: x for x in xs}] *)
Definition comprehension {V} (key : V -> string) (xs : list V) : t V :=
  fold_left (fun d x => set d (key x) x) xs [].

(** A dictionary holds a key once. *)
Definition wf {V} (d : t V) : Prop := NoDup (keys d).

(** Every key is the [name] of its value. *)
Definition keyed_by {V} (key : V -> string) (d : t V) : Prop :=
  Forall (fun kv => fst kv = key (snd kv)) d.
End dict.

(** ** The flat buffer *)

(** Modelled from the spec: the binary codec adapter, that is the
    [flatbuffers] package and the code generated from the schema, neither of
    which is part of the sources.  The spec (sections 2 and 6) fixes a flat
    buffer of records reached through forward-pointing offsets, with a
    root-offset prefix, tables whose fields sit at fixed slots, strings and
    vectors that keep insertion order, built by start / add-field / end calls.
    The buffer is kept at the granularity of whole records: one [object] per
    root prefix, string, vector or table; an offset counts objects. *)
Module flatbuffers.
Section Buffer.
Variable H : Type.

(** A field of a table: an offset to another object, relative to the table
    that holds it, or a reference to a method implementation. *)
Inductive field : Type :=
| UOffset (rel : nat)
| Ref (h : H).

Inductive object : Type :=
| Root (rel : nat)
| Str (s : string)
| Vec (rels : list nat)
| Table (vtable : list (nat * field)).

#[local] Abbreviation buffer := (list object) (only parsing).

(** The field at slot [id] of a vtable. *)
Fixpoint slot (vtable : list (nat * field)) (id : nat) : option field :=
  match vtable with
  | [] => None
  | (id', f) :: vtable' => if Nat.eqb id' id then Some f else slot vtable' id
  end.

(** *** Reading *)

(** [flatbuffers.table.Table]: a buffer and the position of a table in it. *)
Record Tab : Type := { Bytes : buffer; Pos : nat }.

Definition Offset (tab : Tab) (id : nat) : option field :=
  match Bytes tab !! Pos tab with
  | Some (Table vtable) => slot vtable id
  | _ => None
  end.

Definition Indirect (tab : Tab) (id : nat) : option nat :=
  match Offset tab id with
  | Some (UOffset rel) => Some (Pos tab + rel)
  | _ => None
  end.

Definition String (tab : Tab) (id : nat) : option string :=
  match Indirect tab id with
  | Some p => match Bytes tab !! p with Some (Str s) => Some s | _ => None end
  | None => None
  end.

(** The position of the vector at slot [id] and its elements, each an offset
    relative to the vector. *)
Definition Vector (tab : Tab) (id : nat) : option (nat * list nat) :=
  match Indirect tab id with
  | Some p => match Bytes tab !! p with Some (Vec rels) => Some (p, rels) | _ => None end
  | None => None
  end.

Definition VectorLen (tab : Tab) (id : nat) : option nat :=
  match Vector tab id with
  | Some (_, rels) => Some (length rels)
  | None => None
  end.

Definition Handle (tab : Tab) (id : nat) : option H :=
  match Offset tab id with
  | Some (Ref h) => Some h
  | _ => None
  end.

(** *** Building *)

(** [flatbuffers.Builder].  The buffer grows towards its front, so what is
    built first ends up last and every offset points forward.  The offset the
    builder hands out for an object is its distance from the end of the
    buffer; it becomes relative when a vector or a table that refers to the
    object is ended. *)
Record Builder : Type := {
  finished : buffer;
  vtable : list (nat * field);
  vector : list nat
}.

Definition fresh : Builder := {| finished := []; vtable := []; vector := [] |}.

Definition push (o : object) (b : Builder) : Builder :=
  {| finished := o :: finished b; vtable := vtable b; vector := vector b |}.

Definition CreateString (s : string) : Py.t Builder nat :=
  fun b => let b' := push (Str s) b in (Returns (length (finished b')), b').

Definition StartVector (n : nat) : Py.t Builder unit :=
  fun b => (Returns tt, {| finished := finished b; vtable := vtable b; vector := [] |}).

Definition PrependUOffsetTRelative (off : nat) : Py.t Builder unit :=
  fun b => (Returns tt, {| finished := finished b; vtable := vtable b; vector := off :: vector b |}).

Definition EndVector : Py.t Builder nat :=
  fun b =>
    let here := S (length (finished b)) in
    let b' := push (Vec ((fun off => here - off) <$> vector b)) b in
    (Returns here, {| finished := finished b'; vtable := vtable b'; vector := [] |}).

Definition StartObject (numfields : nat) : Py.t Builder unit :=
  fun b => (Returns tt, {| finished := finished b; vtable := []; vector := vector b |}).

(** Slot number [o] of a table is the vtable entry at [4 + 2 * o]. *)
Definition add_slot (o : nat) (f : field) : Py.t Builder unit :=
  fun b => (Returns tt, {| finished := finished b; vtable := (4 + 2 * o, f) :: vtable b; vector := vector b |}).

Definition PrependUOffsetTRelativeSlot (o : nat) (off : nat) : Py.t Builder unit :=
  add_slot o (UOffset off).

Definition PrependRefSlot (o : nat) (h : H) : Py.t Builder unit :=
  add_slot o (Ref h).

Definition relative (here : nat) (f : field) : field :=
  match f with
  | UOffset off => UOffset (here - off)
  | Ref h => Ref h
  end.

Definition EndObject : Py.t Builder nat :=
  fun b =>
    let here := S (length (finished b)) in
    let b' := push (Table ((fun '(id, f) => (id, relative here f)) <$> vtable b)) b in
    (Returns here, {| finished := finished b'; vtable := []; vector := vector b' |}).

Definition Finish (root : nat) : Py.t Builder unit :=
  fun b => (Returns tt, push (Root (S (length (finished b)) - root)) b).

Definition Output (b : Builder) : buffer := finished b.

End Buffer.

Abbreviation buffer H := (list (object H)) (only parsing).
End flatbuffers.

Arguments flatbuffers.UOffset {H} rel.
Arguments flatbuffers.Ref {H} h.
Arguments flatbuffers.Root {H} rel.
Arguments flatbuffers.Str {H} s.
Arguments flatbuffers.Vec {H} rels.
Arguments flatbuffers.Table {H} vtable.
Arguments flatbuffers.slot {H} vtable id.
Arguments flatbuffers.Bytes {H} t.
Arguments flatbuffers.Pos {H} t.
Arguments flatbuffers.Build_Tab {H} Bytes Pos.
Arguments flatbuffers.Offset {H} tab id.
Arguments flatbuffers.Indirect {H} tab id.
Arguments flatbuffers.String {H} tab id.
Arguments flatbuffers.Vector {H} tab id.
Arguments flatbuffers.VectorLen {H} tab id.
Arguments flatbuffers.Handle {H} tab id.
Arguments flatbuffers.finished {H} b.
Arguments flatbuffers.vtable {H} b.
Arguments flatbuffers.vector {H} b.
Arguments flatbuffers.Build_Builder {H} finished vtable vector.
Arguments flatbuffers.fresh {H}.
Arguments flatbuffers.push {H} o b.
Arguments flatbuffers.CreateString {H} s.
Arguments flatbuffers.StartVector {H} n.
Arguments flatbuffers.PrependUOffsetTRelative {H} off.
Arguments flatbuffers.EndVector {H}.
Arguments flatbuffers.StartObject {H} numfields.
Arguments flatbuffers.add_slot {H} o f.
Arguments flatbuffers.PrependUOffsetTRelativeSlot {H} o off.
Arguments flatbuffers.PrependRefSlot {H} o h.
Arguments flatbuffers.relative {H} here f.
Arguments flatbuffers.EndObject {H}.
Arguments flatbuffers.Finish {H} root.
Arguments flatbuffers.Output {H} b.

(** ** [meillionen.interface.base] *)

(** Modelled from the spec: [base.py] ([deserialize_to_dict],
    [serialize_dict], [FlatbufferMixin]) is not part of the sources.  The spec
    has every level built by one generic pattern: decoding reads a vector of
    records and builds the name-keyed mapping, failing on a name collision
    (4.2, 4.3); encoding writes the values of the mapping in insertion order
    (4.2); a reader that cannot locate the root fails with
    [MalformedBufferError] (4.3), one that cannot read a record with
    [MalformedRecordError] (4.1). *)
Module base.

(** What the generic helpers ask of the objects they handle: a [name]
    attribute (and the error a second object of that name is), a [serialize]
    method. *)
Class Named (A : Type) : Type := { name_of : A -> string; duplicate : exn }.

Class Serializable (H A : Type) : Type :=
  serialize_to : A -> Py.t (flatbuffers.Builder H) nat.

(** Modelled from the spec: the loop of [deserialize_to_dict], over the
    indices [js] still to read. *)
Fixpoint deserialize_loop {R A} `{Named A}
    (constructor : R -> outcome A) (getter : nat -> outcome R)
    (js : list nat) (xs : dict.t A) : outcome (dict.t A) :=
  match js with
  | [] => Returns xs
  | j :: js' =>
      r ← getter j;
      x ← constructor r;
      match dict.get xs (name_of x) with
      | Some _ => Raises duplicate
      | None => deserialize_loop constructor getter js' (dict.set xs (name_of x) x)
      end
  end.

(** Modelled from the spec: [deserialize_to_dict(constructor, getter, n)]. *)
Definition deserialize_to_dict {R A} `{Named A}
    (constructor : R -> outcome A) (getter : nat -> outcome R) (n : nat)
    : outcome (dict.t A) :=
  deserialize_loop constructor getter (seq 0 n) [].

(** Modelled from the spec: [serialize_list(builder, vector_builder, xs)].
    A vector is filled from its last element to its first. *)
Definition serialize_list {H A} `{Serializable H A}
    (vector_builder : nat -> Py.t (flatbuffers.Builder H) unit) (xs : list A)
    : Py.t (flatbuffers.Builder H) nat :=
  offsets ← Py.for_each serialize_to xs;
  vector_builder (length xs);;
  Py.for_each flatbuffers.PrependUOffsetTRelative (rev offsets);;
  flatbuffers.EndVector.

(** Modelled from the spec: [serialize_dict(builder, vector_builder, xs)]. *)
Definition serialize_dict {H A} `{Serializable H A}
    (vector_builder : nat -> Py.t (flatbuffers.Builder H) unit) (xs : dict.t A)
    : Py.t (flatbuffers.Builder H) nat :=
  serialize_list vector_builder (dict.values xs).

(** Modelled from the spec: [FlatbufferMixin.get_root_as(buf, offset)]. *)
Definition get_root_as {H} (buf : flatbuffers.buffer H) (offset : nat)
    : outcome (flatbuffers.Tab H) :=
  match buf !! offset with
  | Some (flatbuffers.Root n) => Returns (flatbuffers.Build_Tab buf (offset + n))
  | _ => Raises MalformedBufferError
  end.

(** Modelled from the spec: [FlatbufferMixin._get_resource(j, offset,
    constructor)], the reader of element [j] of the vector at slot [offset]. *)
Definition _get_resource {H R} (self : flatbuffers.Tab H) (j : nat) (offset : nat)
    (constructor : flatbuffers.Tab H -> R) : outcome R :=
  match flatbuffers.Vector self offset with
  | Some (p, rels) =>
      match rels !! j with
      | Some rel => Returns (constructor (flatbuffers.Build_Tab (flatbuffers.Bytes self) (p + rel)))
      | None => Raises MalformedRecordError
      end
  | None => Raises MalformedRecordError
  end.

End base.

(** ** Method implementations *)

(** One call of a method implementation: which one, and the keyword
    arguments [sinks=] and [sources=] it got. *)
Record Invocation (H P : Type) : Type := {
  callee : H;
  kw_sinks : P;
  kw_sources : P
}.
Arguments Build_Invocation {H P} callee kw_sinks kw_sources.
Arguments callee {H P} i.
Arguments kw_sinks {H P} i.
Arguments kw_sources {H P} i.

(** What method implementations act on: the world outside the registry, and
    the record of the calls made so far. *)
Record Runtime (H P W : Type) : Type := {
  world : W;
  invoked : list (Invocation H P)
}.
Arguments Build_Runtime {H P W} world invoked.
Arguments world {H P W} r.
Arguments invoked {H P W} r.

(** The method implementations are external to the registry: a handle [h] is
    called as [h(sinks=..., sources=...)], returns or raises, and changes the
    world. *)
Class Callable (H P V W : Type) : Type :=
  call : H -> P -> P -> W -> outcome V * W.

(** ** [MethodRequest] *)

Module MethodRequest.
Record t (P : Type) : Type := Build {
  class_name : string;
  method_name : string;
  sinks : P;
  sources : P
}.
Arguments Build {P} class_name method_name sinks sources.
Arguments class_name {P} t.
Arguments method_name {P} t.
Arguments sinks {P} t.
Arguments sources {P} t.
End MethodRequest.

(** ** [MethodInterface] *)

(** Modelled from the spec: [method_interface.py] is not part of the
    sources.  A method interface is a name and a handle (section 3); its
    record has the name and the handle as its two fields (section 6);
    decoding fails with [MalformedRecordError] when a field cannot be read
    (4.1); calling it invokes the handle with the keyword arguments (4.3). *)
Module MethodInterface.
Record t (H : Type) : Type := Build { name : string; handle : H }.
Arguments Build {H} name handle.
Arguments name {H} t.
Arguments handle {H} t.

Definition NAME_OFFSET : nat := 4.
Definition HANDLE_OFFSET : nat := 6.

#[global] Instance named {H} : base.Named (t H) :=
  {| base.name_of := name; base.duplicate := DuplicateMethodError |}.

(** Modelled from the spec: [MethodInterface.from_interface], the decoding of
    4.1: the name and the handle, [MalformedRecordError] when one is missing. *)
Definition from_interface {H} (interface : flatbuffers.Tab H) : outcome (t H) :=
  match flatbuffers.String interface NAME_OFFSET with
  | None => Raises MalformedRecordError
  | Some n =>
      match flatbuffers.Handle interface HANDLE_OFFSET with
      | None => Raises MalformedRecordError
      | Some h => Returns (Build n h)
      end
  end.

(** Modelled from the spec: [MethodInterface.serialize], the encoding of 4.1:
    the same two fields, and the offset of the record. *)
Definition serialize {H} (self : t H) : Py.t (flatbuffers.Builder H) nat :=
  name_off ← flatbuffers.CreateString (name self);
  flatbuffers.StartObject 2;;
  flatbuffers.PrependUOffsetTRelativeSlot 0 name_off;;
  flatbuffers.PrependRefSlot 1 (handle self);;
  flatbuffers.EndObject.

#[global] Instance serializable {H} : base.Serializable H (t H) := serialize.

(** Modelled from the spec: [MethodInterface.__call__], the call of the
    handle with [sinks=] and [sources=] (4.3); the call is put on record. *)
Definition __call__ {H P V W} {impl : Callable H P V W} (self : t H) (sinks sources : P)
    : Py.t (Runtime H P W) V :=
  fun rt =>
    let '(r, w) := call (handle self) sinks sources (world rt) in
    (r, {| world := w;
           invoked := invoked rt ++ [Build_Invocation (handle self) sinks sources] |}).
End MethodInterface.

(** ** [ClassInterface] *)

(** Modelled from the spec: [class_interface.py] is not part of the sources.
    A class interface is a name and the mapping [_methods] from method name
    to method interface (section 3); its record has the name and the vector
    of method records as its two fields (section 6); [get_method] fails with
    [MethodNotFound] when the name is absent (4.2). *)
Module ClassInterface.
Record t (H : Type) : Type := Build {
  name : string;
  _methods : dict.t (MethodInterface.t H)
}.
Arguments Build {H} name _methods.
Arguments name {H} t.
Arguments _methods {H} t.

Definition NAME_OFFSET : nat := 4.
Definition METHOD_OFFSET : nat := 6.

#[global] Instance named {H} : base.Named (t H) :=
  {| base.name_of := name; base.duplicate := DuplicateClassError |}.

(** Modelled from the spec: [ClassInterface.get_method] (4.2). *)
Definition get_method {H} (self : t H) (name : string) : outcome (MethodInterface.t H) :=
  match dict.get (_methods self) name with
  | Some m => Returns m
  | None => Raises MethodNotFound
  end.

(** The reader class [_ClassInterface], and [_MethodInterface] for the
    elements of its vector: readers are told apart by their class only. *)
Definition _ClassInterface {H} (tab : flatbuffers.Tab H) : flatbuffers.Tab H := tab.

Definition _MethodInterface {H} (tab : flatbuffers.Tab H) : flatbuffers.Tab H := tab.

Definition Name {H} (interface : flatbuffers.Tab H) : outcome string :=
  match flatbuffers.String interface NAME_OFFSET with
  | Some n => Returns n
  | None => Raises MalformedRecordError
  end.

Definition MethodsLength {H} (interface : flatbuffers.Tab H) : outcome nat :=
  match flatbuffers.VectorLen interface METHOD_OFFSET with
  | Some n => Returns n
  | None => Raises MalformedRecordError
  end.

Definition Methods {H} (interface : flatbuffers.Tab H) (j : nat)
    : outcome (flatbuffers.Tab H) :=
  base._get_resource interface j METHOD_OFFSET _MethodInterface.

(** Modelled from the spec: [ClassInterface.from_interface], the decoding of
    4.2: the name, then one method interface per element of the vector. *)
Definition from_interface {H} (interface : flatbuffers.Tab H) : outcome (t H) :=
  n ← Name interface;
  len ← MethodsLength interface;
  methods ← base.deserialize_to_dict MethodInterface.from_interface (Methods interface) len;
  Returns (Build n methods).

(** Modelled from the spec: [ClassInterface.serialize], the encoding of 4.2:
    the name and the vector of the values of [_methods], in their order. *)
Definition serialize {H} (self : t H) : Py.t (flatbuffers.Builder H) nat :=
  name_off ← flatbuffers.CreateString (name self);
  methods_off ← base.serialize_dict (fun n => flatbuffers.StartVector n) (_methods self);
  flatbuffers.StartObject 2;;
  flatbuffers.PrependUOffsetTRelativeSlot 0 name_off;;
  flatbuffers.PrependUOffsetTRelativeSlot 1 methods_off;;
  flatbuffers.EndObject.

#[global] Instance serializable {H} : base.Serializable H (t H) := serialize.
End ClassInterface.

(** ** The code generated from the schema of the root record *)

(** Modelled from the spec: the generated module [_ModuleInterface]
    (imported as [mi]) is not part of the sources.  The root record has one
    field, [classes], a vector of offsets to class records, at slot 4
    (section 6); a buffer whose required field is missing is malformed
    (4.3). *)
Module mi.
(** Modelled from the spec: the generated [ClassesLength], the length of
    the vector at slot 4. *)
Definition ClassesLength {H} (self : flatbuffers.Tab H) : outcome nat :=
  match flatbuffers.VectorLen self 4 with
  | Some n => Returns n
  | None => Raises MalformedBufferError
  end.

Definition Start {H} : Py.t (flatbuffers.Builder H) unit :=
  flatbuffers.StartObject 1.

Definition AddClasses {H} (classes : nat) : Py.t (flatbuffers.Builder H) unit :=
  flatbuffers.PrependUOffsetTRelativeSlot 0 classes.

(** [mi.End]; the name alone is taken in Rocq. *)
Definition End_ {H} : Py.t (flatbuffers.Builder H) nat :=
  flatbuffers.EndObject.

Definition StartClassesVector {H} (numElems : nat) : Py.t (flatbuffers.Builder H) unit :=
  flatbuffers.StartVector numElems.
End mi.

(** ** [module_interface.py] *)

(** [class _ModuleInterface(mi._ModuleInterface, FlatbufferMixin)] *)
Module _ModuleInterface.
Definition CLASS_OFFSET : nat := 4.

Definition GetRootAs {H} (buf : flatbuffers.buffer H) (offset : nat)
    : outcome (flatbuffers.Tab H) :=
  base.get_root_as buf offset.

Definition Classes {H} (self : flatbuffers.Tab H) (j : nat)
    : outcome (flatbuffers.Tab H) :=
  base._get_resource self j CLASS_OFFSET ClassInterface._ClassInterface.
End _ModuleInterface.

(** [class ModuleInterface] *)
Module ModuleInterface.
Record t (H : Type) : Type := Build { classes : dict.t (ClassInterface.t H) }.
Arguments Build {H} classes.
Arguments classes {H} t.

(** What [__init__] is given: a plain sequence of class interfaces, or an
    object with a [values] attribute, that is a mapping. *)
Inductive classes_arg (H : Type) : Type :=
| sequence (cs : list (ClassInterface.t H))
| mapping (d : dict.t (ClassInterface.t H)).
Arguments sequence {H} cs.
Arguments mapping {H} d.

(** [ModuleInterface(classes)]: the object [__init__] leaves behind.  The
    [sequence] case is the one where [hasattr(classes, 'values')] is false;
    nothing in [__init__] raises. *)
Definition __init__ {H} (classes : classes_arg H) : outcome (t H) :=
  Returns (Build
    (match classes with
     | sequence cs => dict.comprehension ClassInterface.name cs
     | mapping d => d
     end)).

(** The state a method of a [ModuleInterface] runs in: the object itself,
    the builder handed to [serialize], and what the method implementations
    act on. *)
Record Process (H P W : Type) : Type := {
  self : t H;
  builder : flatbuffers.Builder H;
  runtime : Runtime H P W
}.
Arguments Build_Process {H P W} self builder runtime.
Arguments self {H P W} p.
Arguments builder {H P W} p.
Arguments runtime {H P W} p.

Definition in_runtime {H P W A} (m : Py.t (Runtime H P W) A) : Py.t (Process H P W) A :=
  Py.zoom runtime (fun rt p => Build_Process (self p) (builder p) rt) m.

Definition in_builder {H P W A} (m : Py.t (flatbuffers.Builder H) A) : Py.t (Process H P W) A :=
  Py.zoom builder (fun b p => Build_Process (self p) b (runtime p)) m.

Definition __call__ {H P V W} {impl : Callable H P V W} (req : MethodRequest.t P)
    : Py.t (Process H P W) V :=
  klass ← Py.try_except
    (cs ← Py.gets (fun p => classes (self p));
     Py.lift (dict.getitem cs (MethodRequest.class_name req)))
    (fun e =>
       match e with
       | KeyError _ => Py.raise (ClassNotFound e)
       | _ => Py.raise e
       end);
  method ← Py.lift (ClassInterface.get_method klass (MethodRequest.method_name req));
  in_runtime (MethodInterface.__call__ method (MethodRequest.sinks req) (MethodRequest.sources req)).

Definition deserialize {H} (buffer : flatbuffers.buffer H) : outcome (t H) :=
  interface ← _ModuleInterface.GetRootAs buffer 0;
  n ← mi.ClassesLength interface;
  classes ← base.deserialize_to_dict ClassInterface.from_interface
              (_ModuleInterface.Classes interface) n;
  __init__ (mapping classes).

Definition serialize {H P W} : Py.t (Process H P W) nat :=
  xs ← Py.gets (fun p => classes (self p));
  in_builder
    (class_off ← base.serialize_dict mi.StartClassesVector xs;
     mi.Start;;
     mi.AddClasses class_off;;
     mi.End_).

Definition handle {H P W} (req : MethodRequest.t P)
    : Py.t (Process H P W) (MethodInterface.t H) :=
  cs ← Py.gets (fun p => classes (self p));
  klass ← Py.lift (dict.getitem cs (MethodRequest.class_name req));
  method ← Py.lift (dict.getitem (ClassInterface._methods klass) (MethodRequest.method_name req));
  mret method.
End ModuleInterface.

(** ** Definitions the statements and proofs use *)

(** The first statement of [__call__]: the lookup of the class, with its
    [except KeyError] clause. *)
Definition class_lookup {H P W} (req : MethodRequest.t P)
    : Py.t (ModuleInterface.Process H P W) (ClassInterface.t H) :=
  Py.try_except
    (cs ← Py.gets (fun p => ModuleInterface.classes (ModuleInterface.self p));
     Py.lift (dict.getitem cs (MethodRequest.class_name req)))
    (fun e =>
       match e with
       | KeyError _ => Py.raise (ClassNotFound e)
       | _ => Py.raise e
       end).

(** What the caller of [serialize] does to get the buffer:
    [off = x.serialize(builder); builder.Finish(off); builder.Output()]. *)
Definition buffer_of {H P W} (p : ModuleInterface.Process H P W) : flatbuffers.buffer H :=
  match ModuleInterface.serialize p with
  | (Returns off, p') =>
      flatbuffers.Output (snd (flatbuffers.Finish off (ModuleInterface.builder p')))
  | (Raises _, _) => []
  end.

(** Two elements of a sequence of class interfaces have the same name. *)
Definition shares_a_name {H} (cs : list (ClassInterface.t H)) : Prop :=
  exists i j c1 c2,
    i <> j /\ cs !! i = Some c1 /\ cs !! j = Some c2
    /\ ClassInterface.name c1 = ClassInterface.name c2.

(** The invariant of the registry: every key of [classes] is the name of the
    class interface under it, and no class name is there twice. *)
Definition registry_invariant {H} (x : ModuleInterface.t H) : Prop :=
  dict.keyed_by ClassInterface.name (ModuleInterface.classes x)
  /\ dict.wf (ModuleInterface.classes x).

(** The distinct strings of a list, each at the place where it first
    occurs. *)
Fixpoint first_occurrences (l : list string) : list string :=
  match l with
  | [] => []
  | k :: l' => k :: filter (fun k' => k' <> k) (first_occurrences l')
  end.

(** The registry keyed anew: each class interface of [x] under its own
    name. *)
Definition rekeyed {H} (x : ModuleInterface.t H) : ModuleInterface.t H :=
  ModuleInterface.Build
    ((fun c => (ClassInterface.name c, c)) <$> dict.values (ModuleInterface.classes x)).

(** *** What [serialize] writes *)

(** The offsets of the elements of a vector, relative to the vector, from
    the sizes of what the elements were encoded to: the elements lie behind
    the vector, the last one first. *)
Fixpoint rels_of (sizes : list nat) : list nat :=
  match sizes with
  | [] => []
  | _ :: rest => S (sum_list rest) :: rels_of rest
  end.

(** The offsets the builder hands out for objects of the given sizes, built
    one after the other onto a buffer of length [base]. *)
Fixpoint offsets_from (base : nat) (sizes : list nat) : list nat :=
  match sizes with
  | [] => []
  | s :: rest => (s + base) :: offsets_from (s + base) rest
  end.

Definition enc_vector {H A} (enc : A -> flatbuffers.buffer H) (xs : list A)
    : flatbuffers.buffer H :=
  flatbuffers.Vec (rels_of ((fun x => length (enc x)) <$> xs)) :: concat (rev (enc <$> xs)).

Definition enc_method {H} (m : MethodInterface.t H) : flatbuffers.buffer H :=
  [flatbuffers.Table
     [(6, flatbuffers.Ref (MethodInterface.handle m)); (4, flatbuffers.UOffset 1)];
   flatbuffers.Str (MethodInterface.name m)].

Definition enc_class {H} (c : ClassInterface.t H) : flatbuffers.buffer H :=
  let rest :=
    enc_vector enc_method (dict.values (ClassInterface._methods c))
      ++ [flatbuffers.Str (ClassInterface.name c)] in
  flatbuffers.Table [(6, flatbuffers.UOffset 1); (4, flatbuffers.UOffset (length rest))]
    :: rest.

Definition enc_module {H} (x : ModuleInterface.t H) : flatbuffers.buffer H :=
  flatbuffers.Table [(4, flatbuffers.UOffset 1)]
    :: enc_vector enc_class (dict.values (ModuleInterface.classes x)).

(** A builder operation that puts the objects [e] in front of the buffer,
    whatever the buffer holds, and returns the offset of the first of them. *)
Definition emits {H} (m : Py.t (flatbuffers.Builder H) nat) (e : flatbuffers.buffer H) : Prop :=
  forall b,
    fst (m b) = Returns (length e + length (flatbuffers.finished b))
    /\ flatbuffers.finished (snd (m b)) = e ++ flatbuffers.finished b.

(** A table at [pos] of the buffer [B] whose slot [fld] points to the
    encoded vector of [xs]. *)
Definition holds_vector {H A} (enc : A -> flatbuffers.buffer H)
    (B : flatbuffers.buffer H) (pos fld : nat) (xs : list A) : Prop :=
  exists vt rel front back,
    B !! pos = Some (flatbuffers.Table vt)
    /\ flatbuffers.slot vt fld = Some (flatbuffers.UOffset rel)
    /\ B = front ++ enc_vector enc xs ++ back
    /\ length front = pos + rel.

(** *** Valid registries *)

(** A class interface whose method names are unique and are the keys they
    stand under. *)
Definition valid_class {H} (c : ClassInterface.t H) : Prop :=
  dict.keyed_by MethodInterface.name (ClassInterface._methods c)
  /\ dict.wf (ClassInterface._methods c).

(** A valid module interface: the invariant of the registry, at both
    levels. *)
Definition valid {H} (x : ModuleInterface.t H) : Prop :=
  registry_invariant x
  /\ Forall valid_class (dict.values (ModuleInterface.classes x)).

(** The keys of the classes and, under each, the names of its methods, in
    order. *)
Definition skeleton {H} (x : ModuleInterface.t H) : list (string * list string) :=
  (fun kc => (fst kc, dict.keys (ClassInterface._methods (snd kc))))
    <$> ModuleInterface.classes x.

(** ** A small registry to run the definitions on *)

Module Example.
(** Ports are named numbers; a handle is the name of an implementation; the
    world is the list of the implementations that ran. *)
Definition ports : Type := list (string * nat).

Definition impl : Callable string ports nat (list string) :=
  fun h sinks sources w =>
    if String.eqb h "boom" then (Raises (KeyError "inner"), w ++ [h])
    else (Returns (length sources), w ++ [h]).

Definition area : MethodInterface.t string := MethodInterface.Build "area" "area_impl".
Definition boom : MethodInterface.t string := MethodInterface.Build "boom" "boom".

Definition shape : ClassInterface.t string :=
  ClassInterface.Build "Shape" [("area", area); ("boom", boom)].

Definition empty : ClassInterface.t string := ClassInterface.Build "Empty" [].

Definition registry : ModuleInterface.t string :=
  ModuleInterface.Build [("Shape", shape); ("Empty", empty)].

Definition process : ModuleInterface.Process string ports (list string) :=
  ModuleInterface.Build_Process registry flatbuffers.fresh (Build_Runtime [] []).

Definition request (class_name method_name : string) : MethodRequest.t ports :=
  MethodRequest.Build class_name method_name [] [("radius", 5)].

(** Two class interfaces of one name, with different methods. *)
Definition foo1 : ClassInterface.t string := ClassInterface.Build "Foo" [("area", area)].
Definition foo2 : ClassInterface.t string := ClassInterface.Build "Foo" [("boom", boom)].

(** A mapping whose key is not the name of its value. *)
Definition miskeyed : dict.t (ClassInterface.t string) := [("Circle", shape)].

End Example.

(** ** Further registries to run the definitions on *)

Module Coverage.
(** What is left of [foo1; foo2]: the second, under the name they share. *)
Definition shadowed : ModuleInterface.t string :=
  ModuleInterface.Build [("Foo", Example.foo2)].

Definition shadowed_process : ModuleInterface.Process string Example.ports (list string) :=
  ModuleInterface.Build_Process shadowed flatbuffers.fresh (Build_Runtime [] []).

Definition miskeyed_process : ModuleInterface.Process string Example.ports (list string) :=
  ModuleInterface.Build_Process (ModuleInterface.Build Example.miskeyed) flatbuffers.fresh
    (Build_Runtime [] []).

Definition shape_only_process : ModuleInterface.Process string Example.ports (list string) :=
  ModuleInterface.Build_Process (ModuleInterface.Build [("Shape", Example.shape)])
    flatbuffers.fresh (Build_Runtime [] []).
End Coverage.

(** * Dispatch *)

Section Dispatch.
Context {H P V W : Type} {impl : Callable H P V W}.
Implicit Types (p : ModuleInterface.Process H P W) (req : MethodRequest.t P).

Lemma class_lookup_hit p req klass :
  dict.get (ModuleInterface.classes (ModuleInterface.self p)) (MethodRequest.class_name req)
    = Some klass ->
  class_lookup req p = (Returns klass, p).
Proof.
  intros Hget. unfold class_lookup, Py.try_except, mbind, py_bind, Py.bind, Py.gets, Py.lift.
  unfold dict.getitem. rewrite Hget. reflexivity.
Qed.

Lemma class_lookup_miss p req :
  dict.get (ModuleInterface.classes (ModuleInterface.self p)) (MethodRequest.class_name req)
    = None ->
  class_lookup req p = (Raises (ClassNotFound (KeyError (MethodRequest.class_name req))), p).
Proof.
  intros Hget. unfold class_lookup, Py.try_except, mbind, py_bind, Py.bind, Py.gets, Py.lift.
  unfold dict.getitem. rewrite Hget. reflexivity.
Qed.

Lemma call_unfold req :
  ModuleInterface.__call__ req =
    (klass ← class_lookup req;
     method ← Py.lift (ClassInterface.get_method klass (MethodRequest.method_name req));
     ModuleInterface.in_runtime
       (MethodInterface.__call__ method (MethodRequest.sinks req) (MethodRequest.sources req))).
Proof. reflexivity. Qed.

(** C2: when the class and the method resolve, dispatch calls the handle of
    the resolved method once, with [sinks=req.sinks] and
    [sources=req.sources], and what the handle returns or raises is what
    dispatch returns or raises, unchanged. *)
Theorem dispatch_invokes_handle p req klass method :
  dict.get (ModuleInterface.classes (ModuleInterface.self p)) (MethodRequest.class_name req)
    = Some klass ->
  ClassInterface.get_method klass (MethodRequest.method_name req) = Returns method ->
  let sinks := MethodRequest.sinks req in
  let sources := MethodRequest.sources req in
  let answer := call (MethodInterface.handle method) sinks sources
                  (world (ModuleInterface.runtime p)) in
  ModuleInterface.__call__ req p =
    (fst answer,
     ModuleInterface.Build_Process (ModuleInterface.self p) (ModuleInterface.builder p)
       (Build_Runtime (snd answer)
          (invoked (ModuleInterface.runtime p)
             ++ [Build_Invocation (MethodInterface.handle method) sinks sources]))).
Proof.
  intros Hclass Hmethod sinks sources answer.
  rewrite call_unfold. unfold mbind, py_bind, Py.bind.
  rewrite (class_lookup_hit _ _ _ Hclass).
  unfold Py.lift. rewrite Hmethod.
  unfold ModuleInterface.in_runtime, Py.zoom, MethodInterface.__call__.
  subst answer sinks sources.
  destruct (call _ _ _ _) as [r w]. reflexivity.
Qed.

(** C4: when the class name is not a key of [classes], dispatch raises
    [ClassNotFound] and leaves the state as it was: no handle is called. *)
Theorem dispatch_class_not_found p req :
  dict.get (ModuleInterface.classes (ModuleInterface.self p)) (MethodRequest.class_name req)
    = None ->
  ModuleInterface.__call__ req p
    = (Raises (ClassNotFound (KeyError (MethodRequest.class_name req))), p).
Proof.
  intros Hclass. rewrite call_unfold. unfold mbind, py_bind, Py.bind.
  rewrite (class_lookup_miss _ _ Hclass). reflexivity.
Qed.

(** C5: when the class resolves and the method name is absent from it,
    dispatch raises [MethodNotFound] and leaves the state as it was: no
    handle is called. *)
Theorem dispatch_method_not_found p req klass :
  dict.get (ModuleInterface.classes (ModuleInterface.self p)) (MethodRequest.class_name req)
    = Some klass ->
  dict.get (ClassInterface._methods klass) (MethodRequest.method_name req) = None ->
  ModuleInterface.__call__ req p = (Raises MethodNotFound, p).
Proof.
  intros Hclass Hmethod. rewrite call_unfold. unfold mbind, py_bind, Py.bind.
  rewrite (class_lookup_hit _ _ _ Hclass).
  unfold Py.lift, ClassInterface.get_method. rewrite Hmethod. reflexivity.
Qed.

(** What [handle] comes to, case by case. *)
Lemma handle_unfold p req :
  ModuleInterface.handle req p =
    (match dict.get (ModuleInterface.classes (ModuleInterface.self p))
             (MethodRequest.class_name req) with
     | None => Raises (KeyError (MethodRequest.class_name req))
     | Some klass =>
         match dict.get (ClassInterface._methods klass) (MethodRequest.method_name req) with
         | None => Raises (KeyError (MethodRequest.method_name req))
         | Some method => Returns method
         end
     end, p).
Proof.
  unfold ModuleInterface.handle, mbind, py_bind, Py.bind, Py.gets, Py.lift, dict.getitem.
  destruct (dict.get _ (MethodRequest.class_name req)) as [klass|]; [|reflexivity].
  destruct (dict.get _ (MethodRequest.method_name req)); reflexivity.
Qed.

(** C10: [handle] resolves the class and the method by two plain
    subscripts and returns the method without calling it: the state is as it
    was, a miss is the bare [KeyError] of the failed subscript (not
    [ClassNotFound] or [MethodNotFound]), and the method returned on a hit is
    the one dispatch resolves and calls. *)
Theorem handle_resolves_without_invoking p req :
  ModuleInterface.handle req p =
    (match dict.get (ModuleInterface.classes (ModuleInterface.self p))
             (MethodRequest.class_name req) with
     | None => Raises (KeyError (MethodRequest.class_name req))
     | Some klass =>
         match dict.get (ClassInterface._methods klass) (MethodRequest.method_name req) with
         | None => Raises (KeyError (MethodRequest.method_name req))
         | Some method => Returns method
         end
     end, p)
  /\ forall method,
       fst (ModuleInterface.handle req p) = Returns method ->
       ModuleInterface.__call__ req p =
         ModuleInterface.in_runtime
           (MethodInterface.__call__ method (MethodRequest.sinks req)
              (MethodRequest.sources req)) p.
Proof.
  split; [apply handle_unfold|]. rewrite handle_unfold. cbn [fst].
  intros method Hret.
  destruct (dict.get _ (MethodRequest.class_name req)) as [klass|] eqn:Hclass; [|discriminate].
  destruct (dict.get _ (MethodRequest.method_name req)) as [m|] eqn:Hmethod; [|discriminate].
  injection Hret as ->.
  rewrite call_unfold. unfold mbind, py_bind, Py.bind.
  rewrite (class_lookup_hit _ _ _ Hclass).
  unfold Py.lift, ClassInterface.get_method. rewrite Hmethod. reflexivity.
Qed.

(** Dispatch never assigns to the object it is called on. *)
Lemma call_keeps_self p req :
  ModuleInterface.self (snd (ModuleInterface.__call__ req p)) = ModuleInterface.self p.
Proof.
  rewrite call_unfold. unfold mbind, py_bind, Py.bind.
  destruct (dict.get (ModuleInterface.classes (ModuleInterface.self p))
              (MethodRequest.class_name req)) as [klass|] eqn:Hclass.
  - rewrite (class_lookup_hit _ _ _ Hclass). unfold Py.lift.
    destruct (ClassInterface.get_method klass (MethodRequest.method_name req)); [|reflexivity].
    unfold ModuleInterface.in_runtime, Py.zoom.
    destruct (MethodInterface.__call__ _ _ _ _). reflexivity.
  - rewrite (class_lookup_miss _ _ Hclass). reflexivity.
Qed.

End Dispatch.

(** * Dictionaries *)

Section DictFacts.
Context {V : Type}.
Implicit Types (d : dict.t V) (k : string) (v : V).

Lemma get_set d k v k' :
  dict.get (dict.set d k v) k' = if String.eqb k k' then Some v else dict.get d k'.
Proof.
  induction d as [|[k0 v0] d IH]; cbn.
  - destruct (String.eqb_spec k k'); reflexivity.
  - destruct (String.eqb_spec k0 k) as [->|Hk0]; cbn.
    + destruct (String.eqb_spec k k'); reflexivity.
    + rewrite IH. destruct (String.eqb_spec k0 k') as [->|]; [|reflexivity].
      destruct (String.eqb_spec k k'); [congruence|reflexivity].
Qed.

Lemma get_None d k : dict.get d k = None <-> k ∉ dict.keys d.
Proof.
  unfold dict.keys. induction d as [|[k0 v0] d IH]; cbn.
  - split; [intros _; apply not_elem_of_nil|reflexivity].
  - rewrite not_elem_of_cons. destruct (String.eqb_spec k0 k) as [->|Hne].
    + split; [discriminate|intros [Hk _]; congruence].
    + rewrite IH. split; [intros Hk; split; [congruence|exact Hk]|intros [_ Hk]; exact Hk].
Qed.

(** Setting a key adds it at the end when it is new, and keeps the keys as
    they are when it is not. *)
Lemma keys_set d k v :
  dict.keys (dict.set d k v) =
    match dict.get d k with
    | Some _ => dict.keys d
    | None => dict.keys d ++ [k]
    end.
Proof.
  unfold dict.keys. induction d as [|[k0 v0] d IH]; cbn; [reflexivity|].
  destruct (String.eqb_spec k0 k) as [->|Hne]; cbn; [reflexivity|].
  rewrite IH. destruct (dict.get d k); reflexivity.
Qed.

Lemma set_new d k v : dict.get d k = None -> dict.set d k v = d ++ [(k, v)].
Proof.
  induction d as [|[k0 v0] d IH]; cbn; [reflexivity|].
  destruct (String.eqb_spec k0 k); [discriminate|].
  intros Hget. rewrite (IH Hget). reflexivity.
Qed.

Lemma set_wf d k v : dict.wf d -> dict.wf (dict.set d k v).
Proof.
  unfold dict.wf. intros Hwf. rewrite keys_set.
  destruct (dict.get d k) eqn:Hget; [exact Hwf|].
  apply NoDup_app. split; [exact Hwf|]. split.
  - intros x Hx Hin. apply list_elem_of_singleton in Hin as ->.
    apply get_None in Hget. exact (Hget Hx).
  - apply NoDup_singleton.
Qed.

Lemma set_keyed_by (key : V -> string) d v :
  dict.keyed_by key d -> dict.keyed_by key (dict.set d (key v) v).
Proof.
  unfold dict.keyed_by. induction 1 as [|[k0 v0] d Hhd Htl IH]; cbn.
  - constructor; [reflexivity|constructor].
  - destruct (String.eqb_spec k0 (key v)) as [Heq|Hne].
    + constructor; [exact Heq|exact Htl].
    + constructor; [exact Hhd|exact IH].
Qed.

(** What filling a dictionary from a sequence leaves under a key: the last
    element of the sequence with that key, or what was there before. *)
Lemma get_fold_set (key : V -> string) (xs : list V) d k :
  dict.get (fold_left (fun d x => dict.set d (key x) x) xs d) k =
    match last (filter (fun x => key x = k) xs) with
    | Some x => Some x
    | None => dict.get d k
    end.
Proof.
  revert d. induction xs as [|x xs IH]; intros d; [reflexivity|].
  cbn [fold_left]. rewrite IH, get_set. rewrite filter_cons.
  destruct (decide (key x = k)) as [Heq|Hne].
  - rewrite last_cons. destruct (last _); [reflexivity|].
    apply String.eqb_eq in Heq. rewrite Heq. reflexivity.
  - apply String.eqb_neq in Hne. rewrite Hne. reflexivity.
Qed.

Lemma fold_set_wf (key : V -> string) (xs : list V) d :
  dict.wf d -> dict.wf (fold_left (fun d x => dict.set d (key x) x) xs d).
Proof.
  revert d. induction xs as [|x xs IH]; intros d Hwf; cbn; [exact Hwf|].
  apply IH, set_wf, Hwf.
Qed.

Lemma fold_set_keyed_by (key : V -> string) (xs : list V) d :
  dict.keyed_by key d ->
  dict.keyed_by key (fold_left (fun d x => dict.set d (key x) x) xs d).
Proof.
  revert d. induction xs as [|x xs IH]; intros d Hd; cbn; [exact Hd|].
  apply IH, set_keyed_by, Hd.
Qed.

End DictFacts.

(** * Construction *)

Section Construction.
Context {H : Type}.
Implicit Types (cs : list (ClassInterface.t H)) (d : dict.t (ClassInterface.t H)).

Lemma init_sequence cs :
  ModuleInterface.__init__ (ModuleInterface.sequence cs)
    = Returns (ModuleInterface.Build (dict.comprehension ClassInterface.name cs)).
Proof. reflexivity. Qed.

Lemma init_mapping d :
  ModuleInterface.__init__ (ModuleInterface.mapping d) = Returns (ModuleInterface.Build d).
Proof. reflexivity. Qed.

Lemma comprehension_invariant cs :
  registry_invariant (ModuleInterface.Build (dict.comprehension ClassInterface.name cs)).
Proof.
  unfold registry_invariant, dict.comprehension. cbn. split.
  - apply fold_set_keyed_by. constructor.
  - apply fold_set_wf. constructor.
Qed.

(** C3, as the code has it: building a registry from a plain sequence never
    raises; the mapping holds every name once, and under a name shared by
    several elements it holds the last of them. *)
Theorem init_sequence_keeps_last cs :
  exists x,
    ModuleInterface.__init__ (ModuleInterface.sequence cs) = Returns x
    /\ dict.wf (ModuleInterface.classes x)
    /\ forall k,
         dict.get (ModuleInterface.classes x) k
           = last (filter (fun c => ClassInterface.name c = k) cs).
Proof.
  eexists. split; [apply init_sequence|]. split.
  - apply comprehension_invariant.
  - intros k. cbn. unfold dict.comprehension. rewrite get_fold_set.
    destruct (last _); reflexivity.
Qed.

End Construction.

(** C3, as the spec has it, fails: two class interfaces named ["Foo"] are
    accepted, and the second takes the place of the first. *)
Lemma init_sequence_duplicate_accepted :
  ModuleInterface.__init__ (ModuleInterface.sequence [Example.foo1; Example.foo2])
    = Returns (ModuleInterface.Build [("Foo", Example.foo2)])
  /\ ~ (forall cs : list (ClassInterface.t string),
         shares_a_name cs ->
         ModuleInterface.__init__ (ModuleInterface.sequence cs) = Raises DuplicateClassError).
Proof.
  split; [reflexivity|]. intros Hclaim.
  specialize (Hclaim [Example.foo1; Example.foo2]).
  assert (Hdup : shares_a_name [Example.foo1; Example.foo2]).
  { exists 0, 1, Example.foo1, Example.foo2. split; [lia|]. repeat split. }
  specialize (Hclaim Hdup). discriminate Hclaim.
Qed.

(** * Building the buffer *)

Section Builder.
Context {H : Type}.
Implicit Types (b : flatbuffers.Builder H).

Lemma Py_bind_run {S A B} (m : Py.t S A) (k : A -> Py.t S B) (s : S) :
  Py.bind m k s =
    match fst (m s) with
    | Returns a => k a (snd (m s))
    | Raises e => (Raises e, snd (m s))
    end.
Proof. unfold Py.bind. destruct (m s) as [[a|e] s']; reflexivity. Qed.

Lemma bind_run {S A B} (m : Py.t S A) (k : A -> Py.t S B) (s : S) :
  (m ≫= k) s =
    match fst (m s) with
    | Returns a => k a (snd (m s))
    | Raises e => (Raises e, snd (m s))
    end.
Proof.
  unfold mbind, py_bind, Py.bind. destruct (m s) as [[a|e] s']; reflexivity.
Qed.

Lemma emits_method (m : MethodInterface.t H) :
  emits (MethodInterface.serialize m) (enc_method m).
Proof.
  intros b. unfold MethodInterface.serialize. repeat (rewrite bind_run; cbn).
  replace (S (length (flatbuffers.finished b)) - length (flatbuffers.finished b))
    with 1 by lia.
  split; reflexivity.
Qed.

Lemma prepend_all (offs : list nat) b :
  Py.for_each flatbuffers.PrependUOffsetTRelative offs b =
    (Returns ((fun _ => tt) <$> offs),
     flatbuffers.Build_Builder (flatbuffers.finished b) (flatbuffers.vtable b)
       (rev offs ++ flatbuffers.vector b)).
Proof.
  revert b. induction offs as [|o offs IH]; intros b; cbn.
  - destruct b; reflexivity.
  - unfold Py.bind. cbn. rewrite IH. cbn. rewrite <- app_assoc. reflexivity.
Qed.

Lemma rels_of_offsets (base : nat) (sizes : list nat) :
  (fun off => S (sum_list sizes + base) - off) <$> offsets_from base sizes = rels_of sizes.
Proof.
  revert base. induction sizes as [|s sizes IH]; intros base; cbn; [reflexivity|].
  f_equal.
  - lia.
  - rewrite <- (IH (s + base)). apply list_fmap_ext. intros i off _. lia.
Qed.

Lemma length_concat_rev {A} (enc : A -> flatbuffers.buffer H) (xs : list A) :
  length (concat (rev (enc <$> xs))) = sum_list ((fun x => length (enc x)) <$> xs).
Proof.
  induction xs as [|x xs IH]; cbn; [reflexivity|].
  rewrite concat_app, length_app, IH. cbn. rewrite app_nil_r. lia.
Qed.

Section Vector.
Context {A : Type} {ser : base.Serializable H A} (enc : A -> flatbuffers.buffer H).

Lemma for_each_emits (xs : list A) :
  (forall x, x ∈ xs -> emits (base.serialize_to x) (enc x)) ->
  forall b,
    fst (Py.for_each base.serialize_to xs b)
      = Returns (offsets_from (length (flatbuffers.finished b))
                   ((fun x => length (enc x)) <$> xs))
    /\ flatbuffers.finished (snd (Py.for_each base.serialize_to xs b))
        = concat (rev (enc <$> xs)) ++ flatbuffers.finished b.
Proof.
  induction xs as [|x xs IH]; intros Hxs b; [split; reflexivity|].
  destruct (Hxs x (list_elem_of_here _ _) b) as [Hoff Hfin].
  destruct (IH (fun y Hy => Hxs y (list_elem_of_further _ _ _ Hy))
              (snd (base.serialize_to x b))) as [Hoffs Hfins].
  cbn [Py.for_each]. rewrite Py_bind_run, Hoff, Py_bind_run, Hoffs. cbn [fst snd Py.ret].
  rewrite Hfins, Hfin, length_app. split; [reflexivity|].
  cbn. rewrite concat_app. cbn. rewrite app_nil_r, <- app_assoc. reflexivity.
Qed.

Lemma emits_list (vector_builder : nat -> Py.t (flatbuffers.Builder H) unit) (xs : list A) :
  (forall n b, vector_builder n b = flatbuffers.StartVector n b) ->
  (forall x, x ∈ xs -> emits (base.serialize_to x) (enc x)) ->
  emits (base.serialize_list vector_builder xs) (enc_vector enc xs).
Proof.
  intros Hvb Hxs b. unfold base.serialize_list.
  destruct (for_each_emits xs Hxs b) as [Hoffs Hfin].
  rewrite bind_run. destruct (Py.for_each base.serialize_to xs b) as [r [fin vt vec]].
  cbn [fst snd flatbuffers.finished] in Hoffs, Hfin. subst r fin. cbn [fst snd].
  rewrite bind_run, Hvb. cbn [fst snd flatbuffers.StartVector].
  rewrite bind_run, prepend_all. cbn.
  rewrite rev_involutive, app_nil_r, !length_app, length_concat_rev.
  rewrite rels_of_offsets. unfold enc_vector.
  split; reflexivity.
Qed.
End Vector.

Lemma emits_class (c : ClassInterface.t H) :
  emits (ClassInterface.serialize c) (enc_class c).
Proof.
  intros b. unfold ClassInterface.serialize, base.serialize_dict.
  rewrite bind_run. cbn [flatbuffers.CreateString fst snd].
  rewrite bind_run.
  destruct (emits_list (ser := MethodInterface.serializable) enc_method
              (fun n => flatbuffers.StartVector n)
              (dict.values (ClassInterface._methods c))
              (fun _ _ => eq_refl) (fun m _ => emits_method m)
              (flatbuffers.push (flatbuffers.Str (ClassInterface.name c)) b)) as [Hoff Hfin].
  rewrite Hoff.
  destruct (base.serialize_list _ _ _) as [r [fin vt vec]].
  cbn [fst snd flatbuffers.finished] in Hfin. subst fin. cbn [fst snd].
  repeat (rewrite bind_run; cbn). unfold enc_class. cbn.
  rewrite !length_app. cbn.
  set (n := length (concat _)). set (L := length (flatbuffers.finished b)).
  split; [f_equal; lia|]. rewrite <- app_assoc. cbn [app].
  replace (S (n + S L) - (n + S L)) with 1 by lia.
  replace (S (n + S L) - L) with (S (n + 1)) by lia.
  reflexivity.
Qed.

Lemma emits_module (x : ModuleInterface.t H) :
  emits (base.serialize_dict mi.StartClassesVector (ModuleInterface.classes x)
         ≫= fun class_off => mi.Start;; mi.AddClasses class_off;; mi.End_)
        (enc_module x).
Proof.
  intros b. unfold base.serialize_dict. rewrite bind_run.
  destruct (emits_list (ser := ClassInterface.serializable) enc_class
              mi.StartClassesVector (dict.values (ModuleInterface.classes x))
              (fun _ _ => eq_refl) (fun c _ => emits_class c) b) as [Hoff Hfin].
  rewrite Hoff.
  destruct (base.serialize_list _ _ _) as [r [fin vt vec]].
  cbn [fst snd flatbuffers.finished] in Hfin. subst fin. cbn [fst snd].
  unfold mi.Start, mi.AddClasses, mi.End_.
  repeat (rewrite bind_run; cbn -[enc_class]). unfold enc_module. cbn -[enc_class].
  rewrite !length_app.
  set (n := length (concat _)). set (L := length (flatbuffers.finished b)).
  split; [f_equal; lia|].
  replace (S (n + L) - (n + L)) with 1 by lia.
  reflexivity.
Qed.

Lemma serialize_run {P W} (p : ModuleInterface.Process H P W) :
  fst (ModuleInterface.serialize p)
    = Returns (length (enc_module (ModuleInterface.self p))
               + length (flatbuffers.finished (ModuleInterface.builder p)))
  /\ ModuleInterface.self (snd (ModuleInterface.serialize p)) = ModuleInterface.self p
  /\ ModuleInterface.runtime (snd (ModuleInterface.serialize p)) = ModuleInterface.runtime p
  /\ flatbuffers.finished (ModuleInterface.builder (snd (ModuleInterface.serialize p)))
      = enc_module (ModuleInterface.self p)
          ++ flatbuffers.finished (ModuleInterface.builder p).
Proof.
  unfold ModuleInterface.serialize. rewrite bind_run. cbn [Py.gets fst snd].
  unfold ModuleInterface.in_builder, Py.zoom.
  destruct (emits_module (ModuleInterface.self p) (ModuleInterface.builder p)) as [Hoff Hfin].
  match goal with |- context [let '(_, _) := ?m in _] => destruct m as [r b'] end.
  cbn [fst snd] in *. subst r. cbn. rewrite Hfin. repeat split.
Qed.

Lemma buffer_of_enc {P W} (p : ModuleInterface.Process H P W) :
  buffer_of p = flatbuffers.Root 1 :: enc_module (ModuleInterface.self p)
                  ++ flatbuffers.finished (ModuleInterface.builder p).
Proof.
  unfold buffer_of. destruct (serialize_run p) as (Hoff & _ & _ & Hfin).
  destruct (ModuleInterface.serialize p) as [r p']. cbn [fst snd] in *. subst r.
  cbn -[enc_module Nat.sub]. rewrite Hfin, length_app.
  replace (S (length (enc_module (ModuleInterface.self p))
              + length (flatbuffers.finished (ModuleInterface.builder p)))
           - (length (enc_module (ModuleInterface.self p))
              + length (flatbuffers.finished (ModuleInterface.builder p)))) with 1 by lia.
  reflexivity.
Qed.
End Builder.

(** * Reading the buffer *)

Section Reader.
Context {H : Type}.

Lemma lookup_skip {A} (pre l : list A) (i : nat) : (pre ++ l) !! (length pre + i) = l !! i.
Proof. induction pre as [|a pre IH]; [reflexivity|exact IH]. Qed.

Lemma lookup_skip_0 {A} (pre l : list A) : (pre ++ l) !! length pre = l !! 0.
Proof. rewrite <- (lookup_skip pre l 0). f_equal. lia. Qed.

Lemma lookup_last_of {A} (pre body suf : list A) (t x : A) :
  (pre ++ (t :: body ++ [x]) ++ suf) !! (length pre + length (body ++ [x])) = Some x.
Proof.
  rewrite lookup_skip, length_app, Nat.add_1_r.
  change ((t :: body ++ [x]) ++ suf) with (t :: (body ++ [x]) ++ suf).
  rewrite <- app_assoc. change (?l !! S ?n) with (list_lookup n (body ++ [x] ++ suf)).
  apply (lookup_skip_0 body (x :: suf)).
Qed.

Lemma decodes_method (m : MethodInterface.t H) (pre suf : flatbuffers.buffer H) :
  MethodInterface.from_interface
    (flatbuffers.Build_Tab (pre ++ enc_method m ++ suf) (length pre)) = Returns m.
Proof.
  unfold MethodInterface.from_interface, flatbuffers.String, flatbuffers.Handle,
    flatbuffers.Indirect, flatbuffers.Offset.
  cbn [flatbuffers.Bytes flatbuffers.Pos]. rewrite lookup_skip_0. cbn.
  rewrite lookup_skip. cbn. destruct m; reflexivity.
Qed.

(** Where the elements of an encoded vector lie. *)
Lemma element_at {A} (enc : A -> flatbuffers.buffer H) (xs : list A) (j : nat) (x : A) :
  xs !! j = Some x ->
  exists r pre suf,
    rels_of ((fun x => length (enc x)) <$> xs) !! j = Some r
    /\ concat (rev (enc <$> xs)) = pre ++ enc x ++ suf
    /\ r = S (length pre).
Proof.
  revert j. induction xs as [|x0 xs IH]; intros j Hj; [discriminate|].
  cbn [fmap list_fmap rev rels_of]. rewrite concat_app. cbn [concat]. rewrite app_nil_r.
  destruct j as [|j]; cbn in Hj.
  - injection Hj as ->. exists (S (sum_list ((fun x => length (enc x)) <$> xs))).
    exists (concat (rev (enc <$> xs))), []. rewrite app_nil_r. repeat split.
    f_equal. symmetry. apply length_concat_rev.
  - destruct (IH j Hj) as (r & pre & suf & Hr & Hcat & Hlen).
    exists r, pre, (suf ++ enc x0). split; [exact Hr|]. split; [|exact Hlen].
    rewrite Hcat, <- !app_assoc. reflexivity.
Qed.

Lemma rels_of_length (sizes : list nat) : length (rels_of sizes) = length sizes.
Proof. induction sizes; cbn; congruence. Qed.

Section Loop.
Context {R A : Type} {named : base.Named A}.
Context (constructor : R -> outcome A) (getter : nat -> outcome R).

Lemma loop_ok (xs : list A) : forall (i : nat) (acc : dict.t A),
  (forall j x, xs !! j = Some x -> getter (i + j) ≫= constructor = Returns x) ->
  NoDup (dict.keys acc ++ (base.name_of <$> xs)) ->
  base.deserialize_loop constructor getter (seq i (length xs)) acc
    = Returns (acc ++ ((fun x => (base.name_of x, x)) <$> xs)).
Proof.
  induction xs as [|x xs IH]; intros i acc Hget Hnodup; cbn.
  - rewrite app_nil_r. reflexivity.
  - pose proof (Hget 0 x eq_refl) as H0. rewrite Nat.add_0_r in H0.
    destruct (getter i) as [r|e]; [|discriminate]. cbn in H0 |- *.
    rewrite H0. cbn.
    assert (Hnew : dict.get acc (base.name_of x) = None).
    { apply get_None. intros Hin. apply NoDup_app in Hnodup as (_ & Hdisj & _).
      apply (Hdisj _ Hin). cbn. apply list_elem_of_here. }
    rewrite Hnew, (set_new _ _ _ Hnew).
    rewrite IH.
    + rewrite <- app_assoc. reflexivity.
    + intros j y Hj. replace (S i + j) with (i + S j) by lia. apply Hget. exact Hj.
    + unfold dict.keys in *. rewrite fmap_app. cbn. rewrite <- app_assoc. exact Hnodup.
Qed.
End Loop.

Section Elements.
Context {A : Type} {named : base.Named A}.
Context (enc : A -> flatbuffers.buffer H) (dec : flatbuffers.Tab H -> outcome A).

Lemma holds_vector_len B pos fld xs :
  holds_vector enc B pos fld xs ->
  flatbuffers.VectorLen (flatbuffers.Build_Tab B pos) fld = Some (length xs).
Proof.
  intros (vt & rel & front & back & Htab & Hslot & HB & Hlen).
  unfold flatbuffers.VectorLen, flatbuffers.Vector, flatbuffers.Indirect, flatbuffers.Offset.
  cbn [flatbuffers.Bytes flatbuffers.Pos]. rewrite Htab, Hslot, <- Hlen.
  rewrite HB at 1. rewrite lookup_skip_0. cbn.
  rewrite rels_of_length, length_fmap. reflexivity.
Qed.

Lemma holds_vector_elem B pos fld xs j x :
  holds_vector enc B pos fld xs ->
  xs !! j = Some x ->
  exists pre suf,
    base._get_resource (flatbuffers.Build_Tab B pos) j fld id
      = Returns (flatbuffers.Build_Tab B (length pre))
    /\ B = pre ++ enc x ++ suf.
Proof.
  intros (vt & rel & front & back & Htab & Hslot & HB & Hlen) Hj.
  destruct (element_at enc xs j x Hj) as (r & pre & suf & Hr & Hcat & ->).
  exists (front ++ flatbuffers.Vec (rels_of ((fun x => length (enc x)) <$> xs)) :: pre),
    (suf ++ back).
  split.
  - unfold base._get_resource, flatbuffers.Vector, flatbuffers.Indirect, flatbuffers.Offset.
    cbn [flatbuffers.Bytes flatbuffers.Pos]. rewrite Htab, Hslot, <- Hlen.
    rewrite HB at 1. rewrite lookup_skip_0. cbn. rewrite Hr. cbn.
    do 2 f_equal. rewrite length_app. cbn. lia.
  - rewrite HB. unfold enc_vector. rewrite Hcat. rewrite <- !app_assoc. cbn.
    rewrite <- !app_assoc. reflexivity.
Qed.

Lemma deserialize_vector B pos fld xs :
  holds_vector enc B pos fld xs ->
  (forall x pre suf, x ∈ xs -> B = pre ++ enc x ++ suf ->
     dec (flatbuffers.Build_Tab B (length pre)) = Returns x) ->
  NoDup (base.name_of <$> xs) ->
  base.deserialize_to_dict dec
    (fun j => base._get_resource (flatbuffers.Build_Tab B pos) j fld id) (length xs)
    = Returns ((fun x => (base.name_of x, x)) <$> xs).
Proof.
  intros Hvec Hdec Hnodup. unfold base.deserialize_to_dict.
  rewrite (loop_ok dec _ xs 0 []); [reflexivity| |exact Hnodup].
  intros j x Hj. cbn [Nat.add].
  destruct (holds_vector_elem B pos fld xs j x Hvec Hj) as (pre & suf & Hget & HB).
  rewrite Hget. cbn. apply (Hdec x pre suf); [|exact HB].
  apply list_elem_of_lookup. exists j. exact Hj.
Qed.
End Elements.

(** A dictionary keyed by the names of its values is given by its values. *)
Lemma keyed_values {A} (key : A -> string) (d : dict.t A) :
  dict.keyed_by key d -> (fun x => (key x, x)) <$> dict.values d = d.
Proof.
  unfold dict.keyed_by, dict.values. induction 1 as [|[k v] d Hk _ IH]; cbn; [reflexivity|].
  cbn in Hk. rewrite IH, <- Hk. reflexivity.
Qed.

Lemma keyed_keys {A} (key : A -> string) (d : dict.t A) :
  dict.keyed_by key d -> key <$> dict.values d = dict.keys d.
Proof.
  unfold dict.keyed_by, dict.values, dict.keys.
  induction 1 as [|[k v] d Hk _ IH]; cbn; [reflexivity|].
  cbn in Hk. rewrite IH, <- Hk. reflexivity.
Qed.

Lemma decodes_class (c : ClassInterface.t H) (pre suf : flatbuffers.buffer H) :
  valid_class c ->
  ClassInterface.from_interface
    (flatbuffers.Build_Tab (pre ++ enc_class c ++ suf) (length pre)) = Returns c.
Proof.
  intros [Hkeyed Hwf].
  set (B := pre ++ enc_class c ++ suf).
  set (ms := dict.values (ClassInterface._methods c)).
  assert (Hvec : holds_vector enc_method B (length pre) ClassInterface.METHOD_OFFSET ms).
  { eexists _, 1, (pre ++ [_]), ([flatbuffers.Str (ClassInterface.name c)] ++ suf).
    split; [|split; [|split]].
    - unfold B. rewrite lookup_skip_0. reflexivity.
    - reflexivity.
    - unfold B, enc_class. cbn. rewrite <- !app_assoc. reflexivity.
    - rewrite length_app. cbn. lia. }
  assert (Hname : flatbuffers.String (flatbuffers.Build_Tab B (length pre))
                    ClassInterface.NAME_OFFSET = Some (ClassInterface.name c)).
  { unfold flatbuffers.String, flatbuffers.Indirect, flatbuffers.Offset.
    cbn [flatbuffers.Bytes flatbuffers.Pos]. unfold B at 1. rewrite lookup_skip_0.
    unfold enc_class at 1. cbn -[enc_vector].
    unfold B, enc_class. rewrite lookup_last_of. reflexivity. }
  unfold ClassInterface.from_interface, ClassInterface.Name, ClassInterface.MethodsLength.
  fold B. rewrite Hname. cbn [mbind outcome_bind].
  rewrite (holds_vector_len enc_method B _ _ ms Hvec). cbn [mbind outcome_bind].
  unfold ClassInterface.Methods.
  rewrite (deserialize_vector enc_method MethodInterface.from_interface B _ _ ms Hvec).
  - cbn [mbind outcome_bind]. change (base.name_of (A := MethodInterface.t H)) with (@MethodInterface.name H).
    unfold ms. rewrite (keyed_values _ _ Hkeyed). destruct c; reflexivity.
  - intros m pre' suf' _ ->. apply decodes_method.
  - change (base.name_of (A := MethodInterface.t H)) with (@MethodInterface.name H).
    unfold ms. rewrite (keyed_keys _ _ Hkeyed). exact Hwf.
Qed.

Lemma decodes_module (x : ModuleInterface.t H) (suf : flatbuffers.buffer H) :
  valid x ->
  ModuleInterface.deserialize (flatbuffers.Root 1 :: enc_module x ++ suf) = Returns x.
Proof.
  intros [[Hkeyed Hwf] Hclasses].
  set (B := flatbuffers.Root 1 :: enc_module x ++ suf).
  set (cs := dict.values (ModuleInterface.classes x)).
  assert (Hvec : holds_vector enc_class B 1 _ModuleInterface.CLASS_OFFSET cs).
  { eexists _, 1, [flatbuffers.Root 1; _], suf. split; [|split; [|split]]; reflexivity. }
  unfold ModuleInterface.deserialize, _ModuleInterface.GetRootAs, base.get_root_as.
  fold B. cbn [lookup list_lookup B mbind outcome_bind Nat.add].
  unfold mi.ClassesLength. change 4 with _ModuleInterface.CLASS_OFFSET.
  rewrite (holds_vector_len enc_class B _ _ cs Hvec). cbn [mbind outcome_bind].
  unfold _ModuleInterface.Classes.
  rewrite (deserialize_vector enc_class ClassInterface.from_interface B _ _ cs Hvec).
  - cbn [mbind outcome_bind].
    change (base.name_of (A := ClassInterface.t H)) with (@ClassInterface.name H).
    unfold cs. rewrite (keyed_values _ _ Hkeyed). destruct x; reflexivity.
  - intros c pre' suf' Hc ->. apply decodes_class.
    unfold cs in Hc. rewrite Forall_forall in Hclasses. apply Hclasses. exact Hc.
  - change (base.name_of (A := ClassInterface.t H)) with (@ClassInterface.name H).
    unfold cs. rewrite (keyed_keys _ _ Hkeyed). exact Hwf.
Qed.

(** A class record that misses its last object cannot be read. *)
Lemma truncated_class (c : ClassInterface.t H) (pre : flatbuffers.buffer H) (k : nat) :
  k < length (pre ++ enc_class c) ->
  ClassInterface.from_interface
    (flatbuffers.Build_Tab (take k (pre ++ enc_class c)) (length pre))
    = Raises MalformedRecordError.
Proof.
  intros Hk. unfold ClassInterface.from_interface, ClassInterface.Name.
  assert (Hname : flatbuffers.String
                    (flatbuffers.Build_Tab (take k (pre ++ enc_class c)) (length pre))
                    ClassInterface.NAME_OFFSET = None); [|rewrite Hname; reflexivity].
  unfold flatbuffers.String, flatbuffers.Indirect, flatbuffers.Offset.
  cbn [flatbuffers.Bytes flatbuffers.Pos].
  destruct (decide (length pre < k)) as [Hlt|Hge].
  - rewrite lookup_take_lt by exact Hlt. rewrite lookup_skip_0.
    unfold enc_class at 1. cbn -[enc_vector].
    rewrite lookup_take_ge; [reflexivity|].
    rewrite length_app in Hk. unfold enc_class in Hk. cbn -[enc_vector] in Hk. lia.
  - rewrite lookup_take_ge by lia. reflexivity.
Qed.

Lemma loop_first_fails {R A} {named : base.Named A}
    (constructor : R -> outcome A) (getter : nat -> outcome R)
    (j : nat) (js : list nat) (acc : dict.t A) (e : exn) :
  getter j ≫= constructor = Raises e ->
  base.deserialize_loop constructor getter (j :: js) acc = Raises e.
Proof.
  intros Hfail. cbn [base.deserialize_loop].
  destruct (getter j) as [r|e']; cbn in Hfail |- *; [|congruence].
  rewrite Hfail. reflexivity.
Qed.

Lemma truncated_module (x : ModuleInterface.t H) (k : nat) :
  k < length (flatbuffers.Root 1 :: enc_module x) ->
  ModuleInterface.deserialize (take k (flatbuffers.Root 1 :: enc_module x))
    = Raises MalformedBufferError
  \/ ModuleInterface.deserialize (take k (flatbuffers.Root 1 :: enc_module x))
    = Raises MalformedRecordError.
Proof.
  intros Hk. unfold enc_module, enc_vector in *.
  set (cs := dict.values (ModuleInterface.classes x)) in *.
  destruct k as [|[|[|k]]]; [left; reflexivity..|]. right.
  destruct cs as [|c cs']; [cbn in Hk; lia|].
  set (rels := rels_of ((fun c => length (enc_class c)) <$> c :: cs')) in *.
  set (pre := [flatbuffers.Root 1; flatbuffers.Table [(4, flatbuffers.UOffset 1)];
               flatbuffers.Vec rels] ++ concat (rev (enc_class <$> cs'))).
  assert (HB : flatbuffers.Root 1 :: flatbuffers.Table [(4, flatbuffers.UOffset 1)]
                 :: flatbuffers.Vec rels :: concat (rev (enc_class <$> c :: cs'))
               = pre ++ enc_class c).
  { unfold pre. cbn. rewrite concat_app. cbn. rewrite app_nil_r. reflexivity. }
  assert (H0 : take (S (S (S k))) (pre ++ enc_class c) !! 0 = Some (flatbuffers.Root 1))
    by reflexivity.
  assert (H1 : take (S (S (S k))) (pre ++ enc_class c) !! 1
               = Some (flatbuffers.Table [(4, flatbuffers.UOffset 1)])) by reflexivity.
  assert (H2 : take (S (S (S k))) (pre ++ enc_class c) !! 2 = Some (flatbuffers.Vec rels))
    by reflexivity.
  assert (Hfirst : ClassInterface.from_interface
                     (flatbuffers.Build_Tab (take (S (S (S k))) (pre ++ enc_class c))
                        (length pre)) = Raises MalformedRecordError).
  { apply truncated_class. rewrite <- HB. exact Hk. }
  assert (Hpre : length pre = 2 + S (sum_list ((fun c => length (enc_class c)) <$> cs'))).
  { unfold pre. rewrite length_app, length_concat_rev. cbn. lia. }
  rewrite HB. remember (take (S (S (S k))) (pre ++ enc_class c)) as B' eqn:HB'.
  unfold ModuleInterface.deserialize, _ModuleInterface.GetRootAs, base.get_root_as.
  rewrite H0. cbn [mbind outcome_bind Nat.add].
  unfold mi.ClassesLength, flatbuffers.VectorLen, flatbuffers.Vector, flatbuffers.Indirect,
    flatbuffers.Offset.
  cbn [flatbuffers.Bytes flatbuffers.Pos]. rewrite H1.
  cbn [flatbuffers.slot Nat.eqb Nat.add]. rewrite H2. cbn [mbind outcome_bind].
  unfold rels at 1. rewrite rels_of_length, length_fmap.
  unfold base.deserialize_to_dict. cbn [length seq].
  rewrite (loop_first_fails _ _ _ _ _ MalformedRecordError); [reflexivity|].
  unfold _ModuleInterface.Classes, base._get_resource, flatbuffers.Vector,
    flatbuffers.Indirect, flatbuffers.Offset.
  cbn [flatbuffers.Bytes flatbuffers.Pos]. rewrite H1.
  cbn [flatbuffers.slot Nat.eqb Nat.add _ModuleInterface.CLASS_OFFSET]. rewrite H2.
  unfold rels. cbn [fmap list_fmap rels_of lookup list_lookup mbind outcome_bind id].
  rewrite <- Hpre. exact Hfirst.
Qed.
End Reader.

(** * The registry invariant *)

Section Invariant.
Context {H : Type}.

Lemma loop_invariant {R A} {named : base.Named A}
    (constructor : R -> outcome A) (getter : nat -> outcome R) (js : list nat) :
  forall acc d : dict.t A,
    dict.keyed_by base.name_of acc -> dict.wf acc ->
    base.deserialize_loop constructor getter js acc = Returns d ->
    dict.keyed_by base.name_of d /\ dict.wf d.
Proof.
  induction js as [|j js IH]; intros acc d Hkeyed Hwf; cbn.
  - intros [= <-]. split; assumption.
  - destruct (getter j) as [r|e]; cbn; [|discriminate].
    destruct (constructor r) as [x|e]; cbn; [|discriminate].
    destruct (dict.get acc (base.name_of x)); [discriminate|].
    apply IH; [apply set_keyed_by, Hkeyed|apply set_wf, Hwf].
Qed.

Lemma deserialize_invariant (buffer : flatbuffers.buffer H) (x : ModuleInterface.t H) :
  ModuleInterface.deserialize buffer = Returns x -> registry_invariant x.
Proof.
  unfold ModuleInterface.deserialize.
  destruct (_ModuleInterface.GetRootAs buffer 0) as [interface|e]; cbn; [|discriminate].
  destruct (mi.ClassesLength interface) as [n|e]; cbn; [|discriminate].
  destruct (base.deserialize_to_dict _ _ n) as [classes|e] eqn:Hloop; cbn; [|discriminate].
  intros [= <-]. unfold base.deserialize_to_dict in Hloop.
  apply loop_invariant in Hloop; [exact Hloop|constructor|constructor].
Qed.

(** C7, as the code has it: a registry built from a plain sequence or read
    by [deserialize] has every key equal to the name of the class interface
    under it and no class name twice; a keyed mapping given to the
    constructor is stored as it is, its keys unchecked. *)
Theorem registry_invariant_established :
  (forall (cs : list (ClassInterface.t H)) x,
     ModuleInterface.__init__ (ModuleInterface.sequence cs) = Returns x ->
     registry_invariant x)
  /\ (forall (buffer : flatbuffers.buffer H) x,
        ModuleInterface.deserialize buffer = Returns x -> registry_invariant x)
  /\ (forall d : dict.t (ClassInterface.t H),
        ModuleInterface.__init__ (ModuleInterface.mapping d)
          = Returns (ModuleInterface.Build d)).
Proof.
  split; [|split].
  - intros cs x. rewrite init_sequence. intros [= <-]. apply comprehension_invariant.
  - exact deserialize_invariant.
  - exact init_mapping.
Qed.

(** C8: [deserialize] takes the root at offset 0 of the buffer, reads the
    vector at slot 4 of the root table, builds one class interface per
    element of the vector and keys each by its name. *)
Theorem deserialize_reads_slot_4 (buffer : flatbuffers.buffer H)
    (n rel : nat) (vt : list (nat * flatbuffers.field H)) (rels : list nat)
    (cs : list (ClassInterface.t H)) :
  buffer !! 0 = Some (flatbuffers.Root n) ->
  buffer !! n = Some (flatbuffers.Table vt) ->
  flatbuffers.slot vt 4 = Some (flatbuffers.UOffset rel) ->
  buffer !! (n + rel) = Some (flatbuffers.Vec rels) ->
  Forall2 (fun r c =>
             ClassInterface.from_interface (flatbuffers.Build_Tab buffer (n + rel + r))
               = Returns c) rels cs ->
  NoDup (ClassInterface.name <$> cs) ->
  ModuleInterface.deserialize buffer
    = Returns (ModuleInterface.Build ((fun c => (ClassInterface.name c, c)) <$> cs)).
Proof.
  intros Hroot Htab Hslot Hvec Hcs Hnodup.
  assert (Hvector : flatbuffers.Vector (flatbuffers.Build_Tab buffer n) 4
                    = Some (n + rel, rels)).
  { unfold flatbuffers.Vector, flatbuffers.Indirect, flatbuffers.Offset.
    cbn [flatbuffers.Bytes flatbuffers.Pos]. rewrite Htab, Hslot, Hvec. reflexivity. }
  unfold ModuleInterface.deserialize, _ModuleInterface.GetRootAs, base.get_root_as.
  rewrite Hroot. cbn [mbind outcome_bind Nat.add].
  unfold mi.ClassesLength, flatbuffers.VectorLen. rewrite Hvector. cbn [mbind outcome_bind].
  unfold base.deserialize_to_dict. rewrite (Forall2_length _ _ _ Hcs).
  rewrite (loop_ok ClassInterface.from_interface _ cs 0 []); [reflexivity| |exact Hnodup].
  intros j c Hj. cbn [Nat.add].
  destruct (Forall2_lookup_r _ _ _ _ _ Hcs Hj) as (r & Hr & Hdec).
  unfold _ModuleInterface.Classes, base._get_resource, _ModuleInterface.CLASS_OFFSET.
  rewrite Hvector, Hr. exact Hdec.
Qed.

End Invariant.

(** * The round trip *)

Section RoundTrip.
Context {H P W : Type}.
Implicit Types (p : ModuleInterface.Process H P W).

(** C1: for a valid registry, what [deserialize] reads from the buffer that
    [serialize] built is a registry with the same class names, the same
    method names under each, in the same order. *)
Theorem roundtrip_classes p :
  valid (ModuleInterface.self p) ->
  exists y,
    ModuleInterface.deserialize (buffer_of p) = Returns y
    /\ skeleton y = skeleton (ModuleInterface.self p).
Proof.
  intros Hvalid. exists (ModuleInterface.self p). split; [|reflexivity].
  rewrite buffer_of_enc. apply decodes_module, Hvalid.
Qed.

(** C6: the empty buffer, and every buffer [serialize] built that was cut
    short, is refused by [deserialize] with [MalformedBufferError] or
    [MalformedRecordError]; no registry comes back. *)
Theorem truncated_buffer_rejected :
  ModuleInterface.deserialize (H := H) [] = Raises MalformedBufferError
  /\ forall p k,
       flatbuffers.finished (ModuleInterface.builder p) = [] ->
       k < length (buffer_of p) ->
       ModuleInterface.deserialize (take k (buffer_of p)) = Raises MalformedBufferError
       \/ ModuleInterface.deserialize (take k (buffer_of p)) = Raises MalformedRecordError.
Proof.
  split; [reflexivity|]. intros p k Hfresh. rewrite buffer_of_enc, Hfresh, app_nil_r.
  apply truncated_module.
Qed.

End RoundTrip.

(** * Nothing mutates the registry *)

(** C9: neither dispatch nor [serialize] changes the [classes] of the
    registry it is called on. *)
Theorem classes_never_mutated {H P V W} {impl : Callable H P V W}
    (p : ModuleInterface.Process H P W) (req : MethodRequest.t P) :
  ModuleInterface.classes (ModuleInterface.self (snd (ModuleInterface.__call__ req p)))
    = ModuleInterface.classes (ModuleInterface.self p)
  /\ ModuleInterface.classes (ModuleInterface.self (snd (ModuleInterface.serialize p)))
    = ModuleInterface.classes (ModuleInterface.self p).
Proof.
  split.
  - rewrite call_keeps_self. reflexivity.
  - destruct (serialize_run p) as (_ & Hself & _). rewrite Hself. reflexivity.
Qed.

(** * The example registry *)

Lemma example_registry_valid : valid Example.registry.
Proof.
  unfold valid, registry_invariant, valid_class, dict.keyed_by, dict.wf. cbn.
  repeat split; repeat constructor; cbn; try reflexivity;
    rewrite ?elem_of_cons, ?elem_of_nil; intros Hin; intuition discriminate.
Qed.

Lemma dispatch_invokes_handle_witness :
  ModuleInterface.__call__ (impl := Example.impl) (Example.request "Shape" "area")
      Example.process
    = (Returns 1,
       ModuleInterface.Build_Process Example.registry flatbuffers.fresh
         (Build_Runtime ["area_impl"] [Build_Invocation "area_impl" [] [("radius", 5)]]))
  /\ ModuleInterface.__call__ (impl := Example.impl) (Example.request "Shape" "boom")
      Example.process
    = (Raises (KeyError "inner"),
       ModuleInterface.Build_Process Example.registry flatbuffers.fresh
         (Build_Runtime ["boom"] [Build_Invocation "boom" [] [("radius", 5)]])).
Proof.
  split.
  - exact (dispatch_invokes_handle (impl := Example.impl) Example.process
             (Example.request "Shape" "area") Example.shape Example.area eq_refl eq_refl).
  - exact (dispatch_invokes_handle (impl := Example.impl) Example.process
             (Example.request "Shape" "boom") Example.shape Example.boom eq_refl eq_refl).
Defined.

Lemma dispatch_class_not_found_witness :
  ModuleInterface.__call__ (impl := Example.impl) (Example.request "Missing" "x")
      Example.process
    = (Raises (ClassNotFound (KeyError "Missing")), Example.process).
Proof.
  exact (dispatch_class_not_found (impl := Example.impl) Example.process
           (Example.request "Missing" "x") eq_refl).
Defined.

Lemma dispatch_method_not_found_witness :
  ModuleInterface.__call__ (impl := Example.impl) (Example.request "Shape" "perimeter")
      Example.process
    = (Raises MethodNotFound, Example.process).
Proof.
  exact (dispatch_method_not_found (impl := Example.impl) Example.process
           (Example.request "Shape" "perimeter") Example.shape eq_refl eq_refl).
Defined.

Lemma roundtrip_classes_witness :
  exists y,
    ModuleInterface.deserialize (buffer_of Example.process) = Returns y
    /\ skeleton y = [("Shape", ["area"; "boom"]); ("Empty", [])].
Proof.
  exact (roundtrip_classes Example.process example_registry_valid).
Defined.

Lemma deserialize_reads_slot_4_witness :
  ModuleInterface.deserialize (buffer_of Example.process)
    = Returns (ModuleInterface.Build [("Shape", Example.shape); ("Empty", Example.empty)]).
Proof.
  apply (deserialize_reads_slot_4 (buffer_of Example.process) 1 1
           [(4, flatbuffers.UOffset 1)] [4; 1] [Example.shape; Example.empty]);
    try reflexivity.
  - repeat constructor.
  - repeat constructor; cbn; rewrite ?elem_of_cons, ?elem_of_nil;
      intros Hin; intuition discriminate.
Defined.

(** C7, as the spec has it, fails: a mapping whose key is not the name of its
    value is taken as the registry. *)
Lemma mapping_key_differs_from_name :
  dict.wf Example.miskeyed
  /\ ModuleInterface.__init__ (ModuleInterface.mapping Example.miskeyed)
     = Returns (ModuleInterface.Build [("Circle", Example.shape)])
  /\ ~ (forall (classes : ModuleInterface.classes_arg string) x,
          (forall d, classes = ModuleInterface.mapping d -> dict.wf d) ->
          ModuleInterface.__init__ classes = Returns x ->
          registry_invariant x).
Proof.
  assert (Hwf : dict.wf Example.miskeyed).
  { unfold dict.wf. cbn. repeat constructor. rewrite elem_of_nil. tauto. }
  split; [exact Hwf|]. split; [reflexivity|]. intros Hclaim.
  assert (Hinv : registry_invariant (ModuleInterface.Build Example.miskeyed)).
  { apply (Hclaim (ModuleInterface.mapping Example.miskeyed)); [|reflexivity].
    intros d [= <-]. exact Hwf. }
  destruct Hinv as [Hkeyed _].
  unfold dict.keyed_by in Hkeyed. cbn in Hkeyed.
  apply Forall_cons in Hkeyed as [Hkey _]. discriminate Hkey.
Qed.

Lemma truncated_buffer_rejected_witness :
  ModuleInterface.deserialize (take 5 (buffer_of Example.process))
    = Raises MalformedBufferError
  \/ ModuleInterface.deserialize (take 5 (buffer_of Example.process))
    = Raises MalformedRecordError.
Proof.
  apply (proj2 truncated_buffer_rejected Example.process 5); [reflexivity|].
  vm_compute. lia.
Defined.

Lemma registry_invariant_established_witness :
  registry_invariant
    (ModuleInterface.Build (dict.comprehension ClassInterface.name
                              [Example.foo1; Example.foo2; Example.shape])).
Proof.
  exact (proj1 registry_invariant_established
           [Example.foo1; Example.foo2; Example.shape] _ eq_refl).
Defined.

Lemma handle_resolves_without_invoking_witness :
  ModuleInterface.handle (Example.request "Shape" "perimeter") Example.process
    = (Raises (KeyError "perimeter"), Example.process)
  /\ ModuleInterface.__call__ (impl := Example.impl) (Example.request "Shape" "area")
       Example.process
     = ModuleInterface.in_runtime
         (MethodInterface.__call__ (impl := Example.impl) Example.area [] [("radius", 5)])
         Example.process.
Proof.
  split.
  - exact (proj1 (handle_resolves_without_invoking (impl := Example.impl)
                    Example.process (Example.request "Shape" "perimeter"))).
  - exact (proj2 (handle_resolves_without_invoking (impl := Example.impl)
                    Example.process (Example.request "Shape" "area"))
             Example.area eq_refl).
Defined.

(** * More on construction, dispatch and the round trip *)

Section Normalization.
Context {V : Type} (key : V -> string).
Implicit Types (d : dict.t V) (xs : list V).

Lemma get_Some_key d k : is_Some (dict.get d k) <-> k ∈ dict.keys d.
Proof.
  destruct (dict.get d k) as [v|] eqn:Hget.
  - split; [intros _|intros _; eexists; reflexivity].
    destruct (decide (k ∈ dict.keys d)) as [|Hnot]; [assumption|].
    apply get_None in Hnot. congruence.
  - split; [intros [v Hv]; discriminate|]. intros Hin. apply get_None in Hget. contradiction.
Qed.

Lemma fold_set_unique xs : forall d,
  NoDup (dict.keys d ++ (key <$> xs)) ->
  fold_left (fun d x => dict.set d (key x) x) xs d = d ++ ((fun x => (key x, x)) <$> xs).
Proof.
  induction xs as [|x xs IH]; intros d Hnodup; cbn.
  - rewrite app_nil_r. reflexivity.
  - assert (Hnew : dict.get d (key x) = None).
    { apply get_None. intros Hin. apply NoDup_app in Hnodup as (_ & Hdisj & _).
      apply (Hdisj _ Hin). apply list_elem_of_here. }
    rewrite (set_new _ _ _ Hnew), IH.
    + rewrite <- app_assoc. reflexivity.
    + unfold dict.keys in *. rewrite fmap_app. cbn. rewrite <- app_assoc. exact Hnodup.
Qed.

Lemma fold_set_keys xs : forall d,
  dict.keys (fold_left (fun d x => dict.set d (key x) x) xs d)
    = dict.keys d ++ filter (fun k => k ∉ dict.keys d) (first_occurrences (key <$> xs)).
Proof.
  induction xs as [|x xs IH]; intros d; cbn [fold_left fmap list_fmap first_occurrences].
  - rewrite filter_nil, app_nil_r. reflexivity.
  - rewrite IH, keys_set. destruct (dict.get d (key x)) as [v|] eqn:Hget.
    + assert (Hin : key x ∈ dict.keys d) by (apply get_Some_key; eexists; exact Hget).
      rewrite filter_cons_False by (intros Hnot; exact (Hnot Hin)).
      rewrite list_filter_filter_l; [reflexivity|].
      intros k Hk ->. exact (Hk Hin).
    + apply get_None in Hget.
      rewrite filter_cons_True by exact Hget.
      rewrite <- app_assoc. cbn. do 2 f_equal.
      rewrite list_filter_filter. apply list_filter_iff. intros k.
      rewrite not_elem_of_app, list_elem_of_singleton. tauto.
Qed.

Lemma filter_all {A} (P : A -> Prop) `{!forall x, Decision (P x)} (l : list A) :
  (forall x, P x) -> filter P l = l.
Proof.
  intros HP. induction l as [|x l IH]; [reflexivity|].
  rewrite filter_cons_True by apply HP. rewrite IH. reflexivity.
Qed.

Lemma first_occurrences_NoDup (l : list string) : NoDup (first_occurrences l).
Proof.
  induction l as [|k l IH]; cbn; [constructor|].
  apply NoDup_cons. split.
  - rewrite list_elem_of_filter. intros [Hne _]. exact (Hne eq_refl).
  - apply NoDup_filter, IH.
Qed.

Lemma first_occurrences_elem (l : list string) (k : string) :
  k ∈ first_occurrences l <-> k ∈ l.
Proof.
  induction l as [|k0 l IH]; cbn; [reflexivity|].
  rewrite !elem_of_cons, list_elem_of_filter, IH.
  destruct (decide (k = k0)); tauto.
Qed.

End Normalization.

Section Normalized.
Context {H : Type}.
Implicit Types (cs : list (ClassInterface.t H)) (d : dict.t (ClassInterface.t H)).

Lemma comprehension_unique cs :
  NoDup (ClassInterface.name <$> cs) ->
  dict.comprehension ClassInterface.name cs = (fun c => (ClassInterface.name c, c)) <$> cs.
Proof.
  intros Hnodup. unfold dict.comprehension.
  rewrite fold_set_unique; [reflexivity|exact Hnodup].
Qed.

Lemma comprehension_values d :
  dict.keyed_by ClassInterface.name d -> dict.wf d ->
  dict.comprehension ClassInterface.name (dict.values d) = d.
Proof.
  intros Hkeyed Hwf. rewrite comprehension_unique.
  - apply keyed_values, Hkeyed.
  - rewrite (keyed_keys _ _ Hkeyed). exact Hwf.
Qed.

(** X1: a sequence of class interfaces whose names are all different is
    stored as it stands: the mapping lists each class interface under its
    name, in the order of the sequence. *)
Theorem init_sequence_unique_names cs :
  NoDup (ClassInterface.name <$> cs) ->
  ModuleInterface.__init__ (ModuleInterface.sequence cs)
    = Returns (ModuleInterface.Build ((fun c => (ClassInterface.name c, c)) <$> cs)).
Proof.
  intros Hnodup. rewrite init_sequence, (comprehension_unique cs Hnodup). reflexivity.
Qed.

(** X2: in a registry built from a sequence, every entry is an element of
    the sequence standing under its own name, and every element of the
    sequence has an entry under its name (its own or a later namesake's). *)
Theorem init_sequence_members cs x :
  ModuleInterface.__init__ (ModuleInterface.sequence cs) = Returns x ->
  (forall k c, dict.get (ModuleInterface.classes x) k = Some c ->
               c ∈ cs /\ ClassInterface.name c = k)
  /\ (forall c, c ∈ cs -> is_Some (dict.get (ModuleInterface.classes x) (ClassInterface.name c))).
Proof.
  rewrite init_sequence. intros [= <-]. cbn [ModuleInterface.classes].
  unfold dict.comprehension. split.
  - intros k c. rewrite get_fold_set. cbn [dict.get].
    destruct (last _) as [c'|] eqn:Hlast; [|discriminate]. intros [= ->].
    apply last_Some_elem_of, list_elem_of_filter in Hlast as [Hname Hin]. split; assumption.
  - intros c Hin. rewrite get_fold_set.
    destruct (last _) as [c'|] eqn:Hlast; [eexists; reflexivity|].
    apply last_None in Hlast.
    assert (Hc : c ∈ filter (fun c' => ClassInterface.name c' = ClassInterface.name c) cs)
      by (apply list_elem_of_filter; split; [reflexivity|exact Hin]).
    rewrite Hlast in Hc. apply elem_of_nil in Hc. contradiction.
Qed.

(** X3: the keys of a registry built from a sequence are the names of the
    sequence without repetition, each at the place where it first occurs. *)
Theorem init_sequence_key_order cs x :
  ModuleInterface.__init__ (ModuleInterface.sequence cs) = Returns x ->
  dict.keys (ModuleInterface.classes x) = first_occurrences (ClassInterface.name <$> cs).
Proof.
  rewrite init_sequence. intros [= <-]. cbn [ModuleInterface.classes].
  unfold dict.comprehension. rewrite fold_set_keys. cbn [dict.keys fmap list_fmap app].
  apply filter_all. intros k. apply not_elem_of_nil.
Qed.

(** X4: for a mapping keyed by the names of its values, the two ways to
    construct a registry agree: the sequence of its values gives the registry
    the mapping itself gives. *)
Theorem init_paths_agree d :
  dict.keyed_by ClassInterface.name d -> dict.wf d ->
  ModuleInterface.__init__ (ModuleInterface.sequence (dict.values d))
    = ModuleInterface.__init__ (ModuleInterface.mapping d).
Proof.
  intros Hkeyed Hwf. rewrite init_sequence, init_mapping, (comprehension_values d Hkeyed Hwf).
  reflexivity.
Qed.

(** X5: normalizing is idempotent: the values of a registry built from a
    sequence, given to the constructor again, build the same registry. *)
Theorem init_sequence_idempotent cs x :
  ModuleInterface.__init__ (ModuleInterface.sequence cs) = Returns x ->
  ModuleInterface.__init__ (ModuleInterface.sequence (dict.values (ModuleInterface.classes x)))
    = Returns x.
Proof.
  rewrite init_sequence. intros [= <-]. rewrite init_sequence. cbn [ModuleInterface.classes].
  destruct (comprehension_invariant cs) as [Hkeyed Hwf]. cbn in Hkeyed, Hwf.
  rewrite (comprehension_values _ Hkeyed Hwf). reflexivity.
Qed.
End Normalized.

Section DispatchMore.
Context {H P V W : Type} {impl : Callable H P V W}.
Implicit Types (p : ModuleInterface.Process H P W) (req : MethodRequest.t P).

(** Dispatch, once the class lookup is settled. *)
Lemma call_cases p req :
  ModuleInterface.__call__ req p =
    match dict.get (ModuleInterface.classes (ModuleInterface.self p))
            (MethodRequest.class_name req) with
    | None => (Raises (ClassNotFound (KeyError (MethodRequest.class_name req))), p)
    | Some klass =>
        (method ← Py.lift (ClassInterface.get_method klass (MethodRequest.method_name req));
         ModuleInterface.in_runtime
           (MethodInterface.__call__ method (MethodRequest.sinks req)
              (MethodRequest.sources req))) p
    end.
Proof.
  rewrite call_unfold. unfold mbind at 1, py_bind at 1, Py.bind at 1.
  destruct (dict.get _ (MethodRequest.class_name req)) as [klass|] eqn:Hclass.
  - rewrite (class_lookup_hit _ _ _ Hclass). reflexivity.
  - rewrite (class_lookup_miss _ _ Hclass). reflexivity.
Qed.

(** X6: dispatch never touches the builder, keeps the record of the calls
    made so far and adds at most one call to it. *)
Theorem dispatch_calls_at_most_one_handle p req :
  ModuleInterface.builder (snd (ModuleInterface.__call__ req p)) = ModuleInterface.builder p
  /\ exists calls,
       invoked (ModuleInterface.runtime (snd (ModuleInterface.__call__ req p)))
         = invoked (ModuleInterface.runtime p) ++ calls
       /\ length calls <= 1.
Proof.
  rewrite call_cases.
  destruct (dict.get _ (MethodRequest.class_name req)) as [klass|].
  - unfold mbind, py_bind, Py.bind, Py.lift.
    destruct (ClassInterface.get_method klass (MethodRequest.method_name req)) as [method|e].
    + unfold ModuleInterface.in_runtime, Py.zoom, MethodInterface.__call__.
      destruct (call _ _ _ _) as [r w]. cbn. split; [reflexivity|].
      eexists. split; [reflexivity|]. cbn. lia.
    + cbn. split; [reflexivity|]. exists []. rewrite app_nil_r. split; [reflexivity|cbn; lia].
  - cbn. split; [reflexivity|]. exists []. rewrite app_nil_r. split; [reflexivity|cbn; lia].
Qed.

(** X7: [handle] raises nothing but the [KeyError] of one of its two
    subscripts, and whenever it does, dispatch of the same request fails
    without calling anything: with [ClassNotFound] caused by that [KeyError]
    for the class name, with [MethodNotFound] for the method name. *)
Theorem handle_failure_is_dispatch_failure p req e :
  fst (ModuleInterface.handle req p) = Raises e ->
  (e = KeyError (MethodRequest.class_name req)
   /\ ModuleInterface.__call__ req p
      = (Raises (ClassNotFound (KeyError (MethodRequest.class_name req))), p))
  \/ (e = KeyError (MethodRequest.method_name req)
      /\ ModuleInterface.__call__ req p = (Raises MethodNotFound, p)).
Proof.
  rewrite handle_unfold, call_cases. cbn [fst].
  destruct (dict.get _ (MethodRequest.class_name req)) as [klass|].
  - unfold mbind, py_bind, Py.bind, Py.lift, ClassInterface.get_method.
    destruct (dict.get _ (MethodRequest.method_name req)); [discriminate|].
    intros [= <-]. right. split; reflexivity.
  - intros [= <-]. left. split; reflexivity.
Qed.

(** X8: on a registry built from a sequence, dispatch goes to the last class
    interface of the sequence that has the requested name, and raises
    [ClassNotFound] when there is none; an earlier namesake is never asked. *)
Theorem dispatch_after_init_sequence (cs : list (ClassInterface.t H)) p req :
  ModuleInterface.__init__ (ModuleInterface.sequence cs) = Returns (ModuleInterface.self p) ->
  ModuleInterface.__call__ req p =
    match last (filter (fun c => ClassInterface.name c = MethodRequest.class_name req) cs) with
    | None => (Raises (ClassNotFound (KeyError (MethodRequest.class_name req))), p)
    | Some klass =>
        (method ← Py.lift (ClassInterface.get_method klass (MethodRequest.method_name req));
         ModuleInterface.in_runtime
           (MethodInterface.__call__ method (MethodRequest.sinks req)
              (MethodRequest.sources req))) p
    end.
Proof.
  rewrite init_sequence. intros [= Hself]. rewrite call_cases, <- Hself.
  cbn [ModuleInterface.classes]. unfold dict.comprehension. rewrite get_fold_set.
  cbn [dict.get]. destruct (last _); reflexivity.
Qed.

(** X12: dispatch looks at one entry of the registry only: two registries
    that hold the same under the requested class name answer a request alike,
    whatever else they hold. *)
Theorem dispatch_looks_at_one_class p p' req :
  dict.get (ModuleInterface.classes (ModuleInterface.self p)) (MethodRequest.class_name req)
    = dict.get (ModuleInterface.classes (ModuleInterface.self p'))
        (MethodRequest.class_name req) ->
  ModuleInterface.runtime p = ModuleInterface.runtime p' ->
  fst (ModuleInterface.__call__ req p) = fst (ModuleInterface.__call__ req p')
  /\ ModuleInterface.runtime (snd (ModuleInterface.__call__ req p))
     = ModuleInterface.runtime (snd (ModuleInterface.__call__ req p')).
Proof.
  intros Hclass Hruntime. rewrite !call_cases, <- Hclass.
  destruct (dict.get _ (MethodRequest.class_name req)) as [klass|].
  - unfold mbind, py_bind, Py.bind, Py.lift.
    destruct (ClassInterface.get_method klass (MethodRequest.method_name req)) as [method|e].
    + unfold ModuleInterface.in_runtime, Py.zoom. rewrite Hruntime.
      destruct (MethodInterface.__call__ _ _ _ _) as [r rt]. split; reflexivity.
    + cbn. split; [reflexivity|exact Hruntime].
  - cbn. split; [reflexivity|exact Hruntime].
Qed.
End DispatchMore.

Section RoundTripMore.
Context {H P W : Type}.
Implicit Types (p : ModuleInterface.Process H P W) (x : ModuleInterface.t H).

Lemma set_values_Forall {V} (Q : V -> Prop) (d : dict.t V) (k : string) (v : V) :
  Forall Q (dict.values d) -> Q v -> Forall Q (dict.values (dict.set d k v)).
Proof.
  unfold dict.values. intros Hd Hv. induction d as [|[k0 v0] d IH]; cbn.
  - constructor; [exact Hv|constructor].
  - cbn in Hd. apply Forall_cons in Hd as [Hv0 Hd].
    destruct (String.eqb k0 k); cbn; constructor; auto.
Qed.

Lemma comprehension_values_Forall {V} (Q : V -> Prop) (key : V -> string) (xs : list V) :
  Forall Q xs -> Forall Q (dict.values (dict.comprehension key xs)).
Proof.
  unfold dict.comprehension. intros Hxs.
  assert (Hgen : forall d, Forall Q (dict.values d) ->
                           Forall Q (dict.values (fold_left (fun d y => dict.set d (key y) y) xs d))).
  { induction Hxs as [|y xs Hy _ IH]; intros d Hd; cbn; [exact Hd|].
    apply IH, set_values_Forall; assumption. }
  apply Hgen. constructor.
Qed.

Lemma values_rekeyed x :
  dict.values (ModuleInterface.classes (rekeyed x)) = dict.values (ModuleInterface.classes x).
Proof.
  unfold rekeyed, dict.values. cbn [ModuleInterface.classes].
  rewrite <- list_fmap_compose.
  rewrite <- (list_fmap_id (snd <$> ModuleInterface.classes x)) at 2.
  apply list_fmap_ext. intros i c _. reflexivity.
Qed.

Lemma rekeyed_valid x :
  NoDup (ClassInterface.name <$> dict.values (ModuleInterface.classes x)) ->
  Forall valid_class (dict.values (ModuleInterface.classes x)) ->
  valid (rekeyed x).
Proof.
  intros Hnodup Hclasses. split; [split|].
  - unfold rekeyed, dict.keyed_by. cbn [ModuleInterface.classes].
    apply Forall_fmap, Forall_forall. intros c _. reflexivity.
  - unfold dict.wf, dict.keys, rekeyed. cbn [ModuleInterface.classes].
    rewrite <- list_fmap_compose. exact Hnodup.
  - rewrite values_rekeyed. exact Hclasses.
Qed.

(** X9: a registry built from any sequence of class interfaces with
    well-keyed methods, names repeated or not, is read back as it is from the
    buffer [serialize] builds of it. *)
Theorem sequence_roundtrip (cs : list (ClassInterface.t H)) p :
  Forall valid_class cs ->
  ModuleInterface.__init__ (ModuleInterface.sequence cs) = Returns (ModuleInterface.self p) ->
  ModuleInterface.deserialize (buffer_of p) = Returns (ModuleInterface.self p).
Proof.
  intros Hcs. rewrite init_sequence. intros [= Hself].
  rewrite buffer_of_enc. apply decodes_module. rewrite <- Hself. split.
  - apply comprehension_invariant.
  - cbn [ModuleInterface.classes]. apply comprehension_values_Forall, Hcs.
Qed.

(** X10: [serialize] writes the class interfaces, not the keys they stand
    under: what [deserialize] reads back is the registry keyed anew by the
    names, whatever the keys were. *)
Theorem roundtrip_rekeys_by_name p :
  NoDup (ClassInterface.name <$> dict.values (ModuleInterface.classes (ModuleInterface.self p))) ->
  Forall valid_class (dict.values (ModuleInterface.classes (ModuleInterface.self p))) ->
  ModuleInterface.deserialize (buffer_of p) = Returns (rekeyed (ModuleInterface.self p)).
Proof.
  intros Hnodup Hclasses. rewrite buffer_of_enc.
  replace (enc_module (ModuleInterface.self p))
    with (enc_module (rekeyed (ModuleInterface.self p)))
    by (unfold enc_module; rewrite values_rekeyed; reflexivity).
  apply decodes_module, rekeyed_valid; assumption.
Qed.

End RoundTripMore.

Section Inversion.
Context {H : Type}.

Lemma loop_length {R A} {named : base.Named A}
    (constructor : R -> outcome A) (getter : nat -> outcome R) (js : list nat) :
  forall acc d : dict.t A,
    base.deserialize_loop constructor getter js acc = Returns d ->
    length d = length acc + length js.
Proof.
  induction js as [|j js IH]; intros acc d; cbn.
  - intros [= <-]. lia.
  - destruct (getter j) as [r|e]; cbn; [|discriminate].
    destruct (constructor r) as [x|e]; cbn; [|discriminate].
    destruct (dict.get acc (base.name_of x)) eqn:Hget; [discriminate|].
    intros Hloop. apply IH in Hloop. rewrite (set_new _ _ _ Hget), length_app in Hloop.
    cbn in Hloop. lia.
Qed.

(** X13: a registry [deserialize] returns was read from a root at offset 0
    whose table has at slot 4 a vector, and it has one class per element of
    that vector. *)
Theorem deserialize_needs_root_and_slot_4 (buffer : flatbuffers.buffer H)
    (x : ModuleInterface.t H) :
  ModuleInterface.deserialize buffer = Returns x ->
  exists n vt rel rels,
    buffer !! 0 = Some (flatbuffers.Root n)
    /\ buffer !! n = Some (flatbuffers.Table vt)
    /\ flatbuffers.slot vt 4 = Some (flatbuffers.UOffset rel)
    /\ buffer !! (n + rel) = Some (flatbuffers.Vec rels)
    /\ length (ModuleInterface.classes x) = length rels.
Proof.
  unfold ModuleInterface.deserialize, _ModuleInterface.GetRootAs, base.get_root_as.
  destruct (buffer !! 0) as [[n| | |]|] eqn:Hroot; cbn; try discriminate.
  unfold mi.ClassesLength, flatbuffers.VectorLen, flatbuffers.Vector, flatbuffers.Indirect,
    flatbuffers.Offset. cbn [flatbuffers.Bytes flatbuffers.Pos].
  destruct (buffer !! n) as [[| | |vt]|] eqn:Htab; cbn; try discriminate.
  destruct (flatbuffers.slot vt 4) as [[rel|]|] eqn:Hslot; cbn; try discriminate.
  destruct (buffer !! (n + rel)) as [[| |rels|]|] eqn:Hvec; cbn; try discriminate.
  destruct (base.deserialize_to_dict _ _ _) as [d|e] eqn:Hloop; cbn; [|discriminate].
  intros [= <-]. exists n, vt, rel, rels. repeat split; try assumption.
  unfold base.deserialize_to_dict in Hloop. apply loop_length in Hloop.
  cbn in Hloop |- *. rewrite Hloop, length_seq. reflexivity.
Qed.
End Inversion.

(** * The added properties on the example registries *)

Lemma example_classes_valid : Forall valid_class [Example.foo1; Example.foo2].
Proof.
  unfold valid_class, dict.keyed_by, dict.wf. cbn.
  repeat constructor; rewrite ?elem_of_nil; tauto.
Qed.

Lemma init_sequence_unique_names_witness :
  ModuleInterface.__init__ (ModuleInterface.sequence [Example.shape; Example.empty])
    = Returns Example.registry.
Proof.
  apply (init_sequence_unique_names [Example.shape; Example.empty]). cbn.
  repeat constructor; rewrite ?elem_of_cons, ?elem_of_nil; intros Hin; intuition discriminate.
Defined.

Lemma init_sequence_members_witness :
  (forall k c, dict.get [("Foo", Example.foo2)] k = Some c ->
               c ∈ [Example.foo1; Example.foo2] /\ ClassInterface.name c = k)
  /\ (forall c, c ∈ [Example.foo1; Example.foo2] ->
                is_Some (dict.get [("Foo", Example.foo2)] (ClassInterface.name c))).
Proof.
  exact (init_sequence_members [Example.foo1; Example.foo2] Coverage.shadowed eq_refl).
Defined.

Lemma init_sequence_key_order_witness :
  dict.keys (dict.comprehension ClassInterface.name
               [Example.foo1; Example.shape; Example.foo2])
    = ["Foo"; "Shape"].
Proof.
  exact (init_sequence_key_order [Example.foo1; Example.shape; Example.foo2] _ eq_refl).
Defined.

Lemma init_paths_agree_witness :
  ModuleInterface.__init__ (ModuleInterface.sequence [Example.shape; Example.empty])
    = ModuleInterface.__init__ (ModuleInterface.mapping (ModuleInterface.classes Example.registry)).
Proof.
  apply (init_paths_agree (ModuleInterface.classes Example.registry));
    apply example_registry_valid.
Defined.

Lemma init_sequence_idempotent_witness :
  ModuleInterface.__init__ (ModuleInterface.sequence [Example.foo2])
    = Returns Coverage.shadowed.
Proof.
  exact (init_sequence_idempotent [Example.foo1; Example.foo2] Coverage.shadowed eq_refl).
Defined.

Lemma handle_failure_is_dispatch_failure_witness :
  (KeyError "Missing" = KeyError "Missing"
   /\ ModuleInterface.__call__ (impl := Example.impl) (Example.request "Missing" "x")
        Example.process
      = (Raises (ClassNotFound (KeyError "Missing")), Example.process))
  \/ (KeyError "Missing" = KeyError "x"
      /\ ModuleInterface.__call__ (impl := Example.impl) (Example.request "Missing" "x")
           Example.process
         = (Raises MethodNotFound, Example.process)).
Proof.
  exact (handle_failure_is_dispatch_failure (impl := Example.impl) Example.process
           (Example.request "Missing" "x") (KeyError "Missing") eq_refl).
Defined.

Lemma dispatch_after_init_sequence_witness :
  ModuleInterface.__call__ (impl := Example.impl) (Example.request "Foo" "area")
      Coverage.shadowed_process
    = (Raises MethodNotFound, Coverage.shadowed_process).
Proof.
  exact (dispatch_after_init_sequence (impl := Example.impl) [Example.foo1; Example.foo2]
           Coverage.shadowed_process (Example.request "Foo" "area") eq_refl).
Defined.

Lemma dispatch_looks_at_one_class_witness :
  fst (ModuleInterface.__call__ (impl := Example.impl) (Example.request "Shape" "area")
         Example.process)
    = fst (ModuleInterface.__call__ (impl := Example.impl) (Example.request "Shape" "area")
             Coverage.shape_only_process)
  /\ ModuleInterface.runtime
       (snd (ModuleInterface.__call__ (impl := Example.impl) (Example.request "Shape" "area")
               Example.process))
     = ModuleInterface.runtime
         (snd (ModuleInterface.__call__ (impl := Example.impl)
                 (Example.request "Shape" "area") Coverage.shape_only_process)).
Proof.
  exact (dispatch_looks_at_one_class (impl := Example.impl) Example.process
           Coverage.shape_only_process (Example.request "Shape" "area") eq_refl eq_refl).
Defined.

Lemma sequence_roundtrip_witness :
  ModuleInterface.deserialize (buffer_of Coverage.shadowed_process)
    = Returns Coverage.shadowed.
Proof.
  exact (sequence_roundtrip [Example.foo1; Example.foo2] Coverage.shadowed_process
           example_classes_valid eq_refl).
Defined.

Lemma roundtrip_rekeys_by_name_witness :
  ModuleInterface.deserialize (buffer_of Coverage.miskeyed_process)
    = Returns (ModuleInterface.Build [("Shape", Example.shape)]).
Proof.
  apply (roundtrip_rekeys_by_name Coverage.miskeyed_process); cbn.
  - repeat constructor. rewrite elem_of_nil. tauto.
  - unfold valid_class, dict.keyed_by, dict.wf. cbn.
    repeat constructor; rewrite ?elem_of_cons, ?elem_of_nil; intros Hin; intuition discriminate.
Defined.

Lemma deserialize_needs_root_and_slot_4_witness :
  exists n vt rel rels,
    buffer_of Example.process !! 0 = Some (flatbuffers.Root n)
    /\ buffer_of Example.process !! n = Some (flatbuffers.Table vt)
    /\ flatbuffers.slot vt 4 = Some (flatbuffers.UOffset rel)
    /\ buffer_of Example.process !! (n + rel) = Some (flatbuffers.Vec rels)
    /\ length (ModuleInterface.classes Example.registry) = length rels.
Proof.
  exact (deserialize_needs_root_and_slot_4 (buffer_of Example.process) Example.registry
           eq_refl).
Defined.
